(** * Smart Code Tutor backend: a shallow embedding and its properties

    The development follows the Python sources

      - [backend/services/code_executor.py]     (module [CodeExecutor])
      - [backend/services/rag_service.py]       (module [RAGService])
      - [backend/services/websocket_manager.py] (module [WebSocketManager])
      - [backend/main.py]                       (module [Main])

    Coroutines and asynchronous generators are embedded in one small
    writer/exception monad: a computation is the ordered trace of what it
    handed to its consumer ([Emit]: a generator's [yield], a handler's
    [send_json]) and of the external services it invoked ([Invoke]), together
    with the way it ended (a returned value or a raised exception).  The
    external services themselves (remote sandbox, [exec], the node
    subprocess, the generative model, the wall clock) are oracles collected in
    a [World] record.  A computation can also end abruptly: with an
    [Exception], which an [except Exception] catches, with an exception
    outside [Exception], which passes every handler of the sources, or by
    never returning.  Library calls answer with a value or an [Exception];
    the in-process [exec] of user code can end in any of these ways.  Pacing
    delays ([asyncio.sleep]) have no observable result and are left out. *)

From Stdlib Require Import ZArith Ascii String.
From stdpp Require Import gmap strings list fin_maps.

Local Open Scope string_scope.
Local Open Scope list_scope.

(** ** Python [str] primitives

    A [str] is a [string]; a character is a code point below 256. *)

Module Py.

Definition nl_char : ascii := "010"%char.
Definition nl : string := String nl_char EmptyString.
Definition dq : string := String (ascii_of_nat 34) EmptyString.

(** [str.isspace] on one character, for code points below 256:
    TAB..CR, FS..US, SPACE, NEL and NBSP. *)
Definition isspace (c : ascii) : bool :=
  let n := nat_of_ascii c in
  (Nat.leb 9 n && Nat.leb n 13) || (Nat.leb 28 n && Nat.leb n 32)
  || Nat.eqb n 133 || Nat.eqb n 160.

Fixpoint lstrip (s : string) : string :=
  match s with
  | EmptyString => EmptyString
  | String c s' => if isspace c then lstrip s' else s
  end.

Fixpoint rstrip (s : string) : string :=
  match s with
  | EmptyString => EmptyString
  | String c s' =>
      match rstrip s' with
      | EmptyString => if isspace c then EmptyString else String c EmptyString
      | r => String c r
      end
  end.

(** [s.strip()] *)
Definition strip (s : string) : string := rstrip (lstrip s).

(** Truth value of a [str]: [if s:] *)
Definition truthy (s : string) : bool :=
  match s with
  | EmptyString => false
  | String _ _ => true
  end.

(** [s.split(sep)] for a one-character separator; never the empty list. *)
Fixpoint split (sep : ascii) (s : string) : list string :=
  match s with
  | EmptyString => [EmptyString]
  | String c s' =>
      if Ascii.eqb c sep then EmptyString :: split sep s'
      else match split sep s' with
           | h :: t => String c h :: t
           | [] => [String c EmptyString]
           end
  end.

(** [sep.join(parts)] *)
Definition join (sep : string) (parts : list string) : string :=
  String.concat sep parts.

(** [s[:n]] and [s[n:]] for [n >= 0] *)
Fixpoint take (n : nat) (s : string) : string :=
  match n, s with
  | S n', String c s' => String c (take n' s')
  | _, _ => EmptyString
  end.

Fixpoint drop (n : nat) (s : string) : string :=
  match n, s with
  | S n', String _ s' => drop n' s'
  | _, _ => s
  end.

(** [s[i:j]] for [0 <= i <= j] *)
Definition slice (i j : nat) (s : string) : string := take (j - i) (drop i s).

(** [range(0, stop, step)] for [step > 0]: CPython computes the number of
    elements, [ceil(stop / step)], and enumerates the multiples of [step]. *)
Definition range_step (stop step : nat) : list nat :=
  map (fun k => k * step) (seq 0 ((stop + step - 1) / step)).

(** [x in xs] for a list of strings *)
Definition contains (xs : list string) (x : string) : bool :=
  bool_decide (x ∈ xs).

(** The lines a replay loop keeps: [for line in s.split('\n'): if line.strip()] *)
Definition nonblank_lines (s : string) : list string :=
  filter (fun line => truthy (strip line) = true) (split nl_char s).

End Py.

(** ** Exceptions, traces and the computation monad *)

(** The instances of [Exception]: what [except Exception] catches. *)
Inductive exn : Type :=
| ValueError (msg : string)
| TimeoutError
| Exception (msg : string).

(** [str(e)] *)
Definition str_exn (e : exn) : string :=
  match e with
  | ValueError msg => msg
  | TimeoutError => EmptyString
  | Exception msg => msg
  end.

(** The ways a call can end without handing back a value. *)
Inductive abrupt : Type :=
| Exc (e : exn)            (* an instance of [Exception] *)
| BaseExc (text : string)  (* raised outside [Exception]: a [BaseException],
                              [SystemExit], [KeyboardInterrupt], ...; the
                              text is [repr] of the raised value *)
| NoReturn.                (* the call never returns *)

Inductive result (E A : Type) : Type :=
| Returns (a : A)
| Raises (e : E).
Arguments Returns {E A} a.
Arguments Raises {E A} e.

(** What a library call answers: a value or an [Exception]. *)
Abbreviation outcome := (result exn).

Definition lift {A} (r : outcome A) : result abrupt A :=
  match r with
  | Returns a => Returns a
  | Raises e => Raises (Exc e)
  end.

(** Calls that leave the process. *)
Inductive Call : Type :=
| SandboxRun (code : string)       (* Sandbox(api_key).run_code(code, timeout) *)
| PyExec (code : string)           (* exec(code, restricted_globals) *)
| NodeRun (code : string)          (* node <temp file holding code> *)
| GenerateContent (prompt : string). (* model.generate_content(prompt).text *)

Inductive Effect (Y : Type) : Type :=
| Emit (y : Y)
| Invoke (c : Call).
Arguments Emit {Y} y.
Arguments Invoke {Y} c.

Definition M (Y A : Type) : Type := list (Effect Y) * result abrupt A.

Definition ret {Y A} (a : A) : M Y A := ([], Returns a).

Definition raise {Y A} (e : exn) : M Y A := ([], Raises (Exc e)).

Definition bind {Y A B} (m : M Y A) (k : A -> M Y B) : M Y B :=
  match m with
  | (t, Returns a) => let '(t', r) := k a in (t ++ t', r)
  | (t, Raises e) => (t, Raises e)
  end.

(** [try: m  except Exception as e: h e]: only an [Exception] reaches the
    handler; any other abrupt end passes through. *)
Definition try_catch {Y A} (m : M Y A) (h : exn -> M Y A) : M Y A :=
  match m with
  | (t, Raises (Exc e)) => let '(t', r) := h e in (t ++ t', r)
  | _ => m
  end.

(** [yield y] in a generator, [await websocket.send_json(y)] in a handler *)
Definition emit {Y} (y : Y) : M Y unit := ([Emit y], Returns tt).

(** A library call whose answer the world decides. *)
Definition invoke {Y A} (c : Call) (answer : outcome A) : M Y A :=
  ([Invoke c], lift answer).

(** A call that runs user code inside the process: the world decides how it
    ends, in any of the ways a computation can. *)
Definition invoke_in_process {Y A} (c : Call) (ending : result abrupt A)
  : M Y A :=
  ([Invoke c], ending).

Notation "x <- m ;; k" := (bind m (fun x => k))
  (at level 60, m at next level, right associativity).
Notation "m ;;; k" := (bind m (fun _ => k))
  (at level 60, right associativity).

(** [for x in xs: body x] *)
Fixpoint for_each {Y X} (xs : list X) (body : X -> M Y unit) : M Y unit :=
  match xs with
  | [] => ret tt
  | x :: xs' => body x ;;; for_each xs' body
  end.

(** [async for y in g: await send(f y)]: the consumer's sends take the place
    of the generator's yields; the generator's calls and its end are kept. *)
Definition relay {Y Z A} (f : Y -> Z) (g : M Y A) : M Z A :=
  (map (fun ev => match ev with
                  | Emit y => Emit (f y)
                  | Invoke c => Invoke c
                  end) g.1, g.2).

(** What the consumer received, in order. *)
Definition events {Y A} (m : M Y A) : list Y :=
  omap (fun ev => match ev with Emit y => Some y | Invoke _ => None end) m.1.

(** The external calls made, in order. *)
Definition calls {Y A} (m : M Y A) : list Call :=
  omap (fun ev => match ev with Emit _ => None | Invoke c => Some c end) m.1.

(** ** [services/code_executor.py] *)

Module CodeExecutor.

(** What the e2b SDK hands back from [run_code]: [execution.logs] (absent or
    falsy: [None]), [execution.results], and [execution.error] ([None], or
    the text [str(execution.error)] of an error object). *)
Record Logs : Type := { stdout : list string; stderr : list string }.

(** A result cell: [text] is [None] when the attribute is missing or [None];
    [data] is [None] when the attribute is missing, else [str(result.data)]. *)
Record Result : Type := { text : option string; data : option string }.

Record Execution : Type :=
  { logs : option Logs; results : list Result; exec_error : option string }.

(** The finished node subprocess, its pipes already decoded. *)
Record Completed : Type :=
  { returncode : Z; proc_stdout : string; proc_stderr : string }.

Record World : Type := {
  e2b_api_key : option string;               (* os.getenv("E2B_API_KEY") *)
  E2B_AVAILABLE : bool;                      (* the import succeeded *)
  run_code : string -> outcome Execution;    (* sandbox session on a code text *)
  exec : string -> result abrupt (string * string);
                                             (* captured (stdout, stderr), or
                                                how the program ended *)
  node : string -> outcome Completed;        (* temp file, subprocess, wait_for *)
  time_start : Z;                            (* time.time() on entry *)
  time_end : Z                               (* time.time() at the end *)
}.

(** The dictionary the private [_execute_*] methods return. *)
Record BackendDict : Type :=
  { r_success : bool; r_output : string; r_error : string }.

(** The dictionary [execute] returns. *)
Record ExecutionResult : Type := {
  success : bool;
  output : string;
  error : string;
  execution_time : Z;
  language : string
}.

(** The dictionaries [execute_streaming] yields, by their ["type"]. *)
Inductive Event : Type :=
| EvError (message : string) (execution_time : option Z)
| EvStart (language : string) (timestamp : Z)
| EvStdout (content : string)
| EvStderr (content : string)
| EvResult (success : bool) (exit_code : option Z)
| EvComplete (execution_time : Z).

Definition supported_languages : list string :=
  ["python"; "javascript"; "bash"; "r"; "java"].

(** [f"{self.supported_languages}"] *)
Definition supported_languages_repr : string :=
  "['python', 'javascript', 'bash', 'r', 'java']".

(** The two input checks of [execute] and [execute_streaming] pass. *)
Definition valid_input (code language : string) : Prop :=
  language ∈ supported_languages ∧ Py.strip code ≠ EmptyString.

Definition max_execution_time : Z := 30.
Definition max_execution_time_repr : string := "30".

Definition _is_e2b_enabled (w : World) : bool :=
  E2B_AVAILABLE w && bool_decide (e2b_api_key w ≠ None).

(** The Python text that runs a JavaScript snippet inside the sandbox. *)
Definition wrap_javascript (code : string) : string :=
  Py.join Py.nl
    [ EmptyString;
      "import subprocess";
      "import tempfile";
      "import os";
      EmptyString;
      "js_code = " +:+ Py.dq +:+ Py.dq +:+ Py.dq +:+ code
        +:+ Py.dq +:+ Py.dq +:+ Py.dq;
      EmptyString;
      "with tempfile.NamedTemporaryFile(mode='w', suffix='.js', delete=False) as f:";
      "    f.write(js_code)";
      "    temp_file = f.name";
      EmptyString;
      "try:";
      "    result = subprocess.run(['node', temp_file], capture_output=True, text=True, timeout="
        +:+ max_execution_time_repr +:+ ")";
      "    print(" +:+ Py.dq +:+ "STDOUT:" +:+ Py.dq +:+ ", result.stdout)";
      "    if result.stderr:";
      "        print(" +:+ Py.dq +:+ "STDERR:" +:+ Py.dq +:+ ", result.stderr)";
      "    if result.returncode != 0:";
      "        print(" +:+ Py.dq +:+ "EXIT CODE:" +:+ Py.dq +:+ ", result.returncode)";
      "finally:";
      "    os.unlink(temp_file)";
      EmptyString ].

(** The Python text that runs a bash snippet inside the sandbox. *)
Definition wrap_bash (code : string) : string :=
  Py.join Py.nl
    [ EmptyString;
      "import subprocess";
      "result = subprocess.run(['/bin/bash', '-c', " +:+ Py.dq +:+ Py.dq +:+ Py.dq
        +:+ code +:+ Py.dq +:+ Py.dq +:+ Py.dq
        +:+ "], capture_output=True, text=True, timeout="
        +:+ max_execution_time_repr +:+ ")";
      "print(" +:+ Py.dq +:+ "STDOUT:" +:+ Py.dq +:+ ", result.stdout)";
      "if result.stderr:";
      "    print(" +:+ Py.dq +:+ "STDERR:" +:+ Py.dq +:+ ", result.stderr)";
      "if result.returncode != 0:";
      "    print(" +:+ Py.dq +:+ "EXIT CODE:" +:+ Py.dq +:+ ", result.returncode)";
      EmptyString ].

(** The text handed to [sandbox.run_code] for each language. *)
Definition sandbox_code (code language : string) : string :=
  if String.eqb language "python" then code
  else if String.eqb language "javascript" then wrap_javascript code
  else if String.eqb language "bash" then wrap_bash code
  else code.

(** [output += ...] over [execution.results] *)
Definition collect_result (out : string) (r : Result) : string :=
  match text r with
  | Some (String c t) => out +:+ String c t +:+ Py.nl
  | _ =>
      match data r with
      | Some d => out +:+ d +:+ Py.nl
      | None => out
      end
  end.

(** "Process results from the new SDK" *)
Definition process_execution (execution : Execution) : BackendDict :=
  let success := bool_decide (exec_error execution = None) in
  let output := EmptyString in
  let error := EmptyString in
  let output :=
    match logs execution with
    | Some l => match stdout l with
                | [] => output
                | _ => output +:+ Py.join Py.nl (stdout l)
                end
    | None => output
    end in
  let error :=
    match logs execution with
    | Some l => match stderr l with
                | [] => error
                | _ => error +:+ Py.join Py.nl (stderr l)
                end
    | None => error
    end in
  let output := fold_left collect_result (results execution) output in
  let '(error, success) :=
    match exec_error execution with
    | Some e => (error +:+ e, false)
    | None => (error, success)
    end in
  {| r_success := success;
     r_output := Py.strip output;
     r_error := Py.strip error |}.

Section Methods.
Context {Y : Type}.
Variable w : World.

(** The [try] block of [_execute_with_e2b] *)
Definition _execute_with_e2b_body (code language : string) : M Y BackendDict :=
  if negb (_is_e2b_enabled w) then
    raise (ValueError "E2B Code Interpreter is not available")
  else
    let src := sandbox_code code language in
    execution <- invoke (SandboxRun src) (run_code w src) ;;
    ret (process_execution execution).

Definition _execute_with_e2b (code language : string) : M Y BackendDict :=
  try_catch (_execute_with_e2b_body code language)
    (fun e => ret {| r_success := false;
                     r_output := EmptyString;
                     r_error := "E2B execution failed: " +:+ str_exn e |}).

Definition _execute_python_fallback (code : string) : M Y BackendDict :=
  try_catch
    (captured <- invoke_in_process (PyExec code) (exec w code) ;;
     ret {| r_success := true;
            r_output := captured.1;
            r_error := captured.2 |})
    (fun e => ret {| r_success := false;
                     r_output := EmptyString;
                     r_error := str_exn e |}).

Definition _execute_javascript_fallback (code : string) : M Y BackendDict :=
  try_catch
    (process <- invoke (NodeRun code) (node w code) ;;
     ret {| r_success := bool_decide (returncode process = 0%Z);
            r_output := proc_stdout process;
            r_error := proc_stderr process |})
    (fun e =>
       match e with
       | TimeoutError =>
           ret {| r_success := false;
                  r_output := EmptyString;
                  r_error := "Execution timed out" |}
       | _ =>
           ret {| r_success := false;
                  r_output := EmptyString;
                  r_error := str_exn e |}
       end).

Definition _execute_fallback (code language : string) : M Y BackendDict :=
  if String.eqb language "python" then _execute_python_fallback code
  else if String.eqb language "javascript" then _execute_javascript_fallback code
  else ret {| r_success := false;
              r_output := EmptyString;
              r_error := "Fallback mode doesn't support " +:+ language |}.

(** The [try] block of [execute] *)
Definition execute_body (code language : string) : M Y ExecutionResult :=
  if negb (Py.contains supported_languages language) then
    raise (ValueError ("Unsupported language: " +:+ language
                       +:+ ". Supported: " +:+ supported_languages_repr))
  else if negb (Py.truthy (Py.strip code)) then
    raise (ValueError "Empty code provided")
  else
    result <- (if _is_e2b_enabled w then _execute_with_e2b code language
               else _execute_fallback code language) ;;
    ret {| success := r_success result;
           output := r_output result;
           error := r_error result;
           execution_time := time_end w - time_start w;
           language := language |}.

Definition execute (code language : string) : M Y ExecutionResult :=
  try_catch (execute_body code language)
    (fun e => ret {| success := false;
                     output := EmptyString;
                     error := str_exn e;
                     execution_time := time_end w - time_start w;
                     language := language |}).

End Methods.

(** [if text: for line in text.split('\n'): if line.strip(): yield mk line] *)
Definition replay_lines (mk : string -> Event) (text : string) : M Event unit :=
  if Py.truthy text then
    for_each (Py.split Py.nl_char text)
      (fun line => if Py.truthy (Py.strip line) then emit (mk line) else ret tt)
  else ret tt.

Definition _execute_streaming_e2b (w : World) (code language : string)
  : M Event unit :=
  try_catch
    (result <- _execute_with_e2b w code language ;;
     replay_lines EvStdout (r_output result) ;;;
     replay_lines EvStderr (r_error result) ;;;
     emit (EvResult (r_success result) None))
    (fun e => emit (EvError ("Code interpreter execution failed: " +:+ str_exn e)
                            None)).

Definition _execute_streaming_fallback (w : World) (code language : string)
  : M Event unit :=
  result <- _execute_fallback w code language ;;
  replay_lines EvStdout (r_output result) ;;;
  replay_lines EvStderr (r_error result) ;;;
  emit (EvResult (r_success result)
                 (Some (if r_success result then 0%Z else 1%Z))).

Definition execute_streaming (w : World) (code language : string)
  : M Event unit :=
  try_catch
    (if negb (Py.contains supported_languages language) then
       emit (EvError ("Unsupported language: " +:+ language) None)
     else if negb (Py.truthy (Py.strip code)) then
       emit (EvError "Empty code provided" None)
     else
       emit (EvStart language (time_start w)) ;;;
       (if _is_e2b_enabled w then _execute_streaming_e2b w code language
        else _execute_streaming_fallback w code language) ;;;
       emit (EvComplete (time_end w - time_start w)%Z))
    (fun e => emit (EvError (str_exn e) (Some (time_end w - time_start w)%Z))).

(** The call came back: with a value, or with an [Exception]. *)
Definition comes_back {A} (r : result abrupt A) : Prop :=
  match r with
  | Returns _ | Raises (Exc _) => True
  | Raises _ => False
  end.

(** The run of the selected backend on a request comes back.  Only the
    in-process [exec] of the python fallback can fail to: the sandbox and
    node are library calls under a timeout. *)
Definition backend_comes_back (w : World) (code language : string) : Prop :=
  _is_e2b_enabled w = false -> language = "python" -> comes_back (exec w code).






End CodeExecutor.

(** ** [services/rag_service.py] *)

Module RAGService.

(** [self.model] after [initialize]: [None] in fallback mode, else the
    generative model, seen through [generate_content(prompt).text]. *)
Record World : Type := { model : option (string -> outcome string) }.

Definition fence : string := "```".

Definition _create_explanation_prompt (code output error : string) : string :=
  let prompt_parts :=
    ["You are an expert programming tutor. Explain the following code in a clear, educational manner."] in
  let prompt_parts := prompt_parts ++
    [Py.nl +:+ "Code to explain:" +:+ Py.nl +:+ fence +:+ Py.nl +:+ code
       +:+ Py.nl +:+ fence] in
  let prompt_parts :=
    if Py.truthy output then prompt_parts ++
      [Py.nl +:+ "Program output:" +:+ Py.nl +:+ fence +:+ Py.nl +:+ output
         +:+ Py.nl +:+ fence]
    else prompt_parts in
  let prompt_parts :=
    if Py.truthy error then prompt_parts ++
      [Py.nl +:+ "Error encountered:" +:+ Py.nl +:+ fence +:+ Py.nl +:+ error
         +:+ Py.nl +:+ fence;
       Py.nl +:+ "Please explain what caused this error and how to fix it."]
    else prompt_parts ++
      [Py.nl +:+ "Please explain how this code works, what it does, and any important concepts."] in
  let prompt_parts := prompt_parts ++
    [Py.nl +:+ "Provide a helpful explanation suitable for learning."] in
  Py.join Py.nl prompt_parts.

Definition _fallback_explanation (code output error : string) : string :=
  let explanation_parts :=
    ["**Code Analysis** (Fallback mode - AI service unavailable)";
     Py.nl +:+ "**Code:**" +:+ Py.nl +:+ fence +:+ Py.nl +:+ code
       +:+ Py.nl +:+ fence] in
  let explanation_parts :=
    if Py.truthy output then explanation_parts ++
      [Py.nl +:+ "**Output:**" +:+ Py.nl +:+ fence +:+ Py.nl +:+ output
         +:+ Py.nl +:+ fence]
    else explanation_parts in
  let explanation_parts :=
    if Py.truthy error then explanation_parts ++
      [Py.nl +:+ "**Error:**" +:+ Py.nl +:+ fence +:+ Py.nl +:+ error
         +:+ Py.nl +:+ fence;
       Py.nl +:+ "**Note:** This code encountered an error. Please check the syntax and logic."]
    else explanation_parts ++
      [Py.nl +:+ "**Note:** This code executed successfully."] in
  let explanation_parts := explanation_parts ++
    [Py.nl +:+ "**Tip:** To get detailed AI-powered explanations, please configure your GOOGLE_API_KEY environment variable."] in
  Py.join Py.nl explanation_parts.

Definition chunk_size : nat := 50.

(** The fragments [text[i:i + chunk_size]] for [i] in
    [range(0, len(text), chunk_size)], in order. *)
Definition chunks (text : string) : list string :=
  map (fun i => Py.slice i (i + chunk_size) text)
      (Py.range_step (String.length text) chunk_size).

Definition explain_code {Y} (w : World) (code output error : string)
  : M Y string :=
  try_catch
    (match model w with
     | None => ret (_fallback_explanation code output error)
     | Some generate_content =>
         let prompt := _create_explanation_prompt code output error in
         text <- invoke (GenerateContent prompt) (generate_content prompt) ;;
         ret text
     end)
    (fun e => ret (_fallback_explanation code output error)).

Definition explain_code_streaming (w : World) (code output error : string)
  : M string unit :=
  try_catch
    (match model w with
     | None => emit (_fallback_explanation code output error)
     | Some generate_content =>
         let prompt := _create_explanation_prompt code output error in
         text <- invoke (GenerateContent prompt) (generate_content prompt) ;;
         for_each (Py.range_step (String.length text) chunk_size)
           (fun i => emit (Py.slice i (i + chunk_size) text))
     end)
    (fun e => emit (_fallback_explanation code output error)).

(** The service object: [self.google_api_key], [self.model] and
    [self.initialized]. *)
Record Service : Type := {
  google_api_key : option string;
  svc_model : option (string -> outcome string);
  initialized : bool
}.

(** What [__init__] and [initialize] find outside: the environment variable
    and the two calls into the model SDK. *)
Record Env : Type := {
  GOOGLE_API_KEY : option string;                       (* os.getenv *)
  configure : string -> outcome unit;                   (* genai.configure *)
  GenerativeModel : string -> outcome (string -> outcome string)
}.

(** [__init__] *)
Definition new (env : Env) : Service :=
  {| google_api_key := GOOGLE_API_KEY env;
     svc_model := None;
     initialized := false |}.

Definition model_name : string := "gemini-2.0-flash-exp".

(** [initialize]: every path, the [except] branch included, ends with
    [self.initialized = True]; [self.model] is assigned only after both SDK
    calls came back. *)
Definition initialize (env : Env) (self : Service) : Service :=
  match google_api_key self with
  | None | Some EmptyString =>
      {| google_api_key := google_api_key self;
         svc_model := svc_model self;
         initialized := true |}
  | Some key =>
      match configure env key with
      | Raises _ =>
          {| google_api_key := google_api_key self;
             svc_model := svc_model self;
             initialized := true |}
      | Returns _ =>
          match GenerativeModel env model_name with
          | Raises _ =>
              {| google_api_key := google_api_key self;
                 svc_model := svc_model self;
                 initialized := true |}
          | Returns m =>
              {| google_api_key := google_api_key self;
                 svc_model := Some m;
                 initialized := true |}
          end
      end
  end.

Definition is_initialized (self : Service) : bool := initialized self.

(** The part of the object the explanation methods read. *)
Definition world_of (self : Service) : World := {| model := svc_model self |}.

End RAGService.

(** ** [services/websocket_manager.py] *)

Module WebSocketManager.

(** An [asyncio.Task] as the manager sees it: [done()] holds of a finished
    task only, and [cancel()] leaves a request on one that is not done. *)
Inductive TaskState : Type := Running | CancelRequested | Finished.

Definition done (t : TaskState) : bool :=
  match t with
  | Finished => true
  | _ => false
  end.

(** Sockets and tasks are shared objects, named by handles; the manager's two
    dictionaries hold handles, [tasks] is the store the handles point into. *)
Record State : Type := {
  active_connections : gmap string nat;
  client_tasks : gmap string (list nat);
  tasks : gmap nat TaskState;
  accepted : gset nat
}.

Definition init : State :=
  {| active_connections := ∅; client_tasks := ∅; tasks := ∅; accepted := ∅ |}.

(** [if not task.done(): task.cancel()] *)
Definition cancel_if_pending (store : gmap nat TaskState) (task : nat)
  : gmap nat TaskState :=
  match store !! task with
  | Some t => if done t then store else <[task := CancelRequested]> store
  | None => store
  end.

Definition connect (websocket : nat) (client_id : string) (s : State) : State :=
  {| active_connections := <[client_id := websocket]> (active_connections s);
     client_tasks := <[client_id := []]> (client_tasks s);
     tasks := tasks s;
     accepted := {[websocket]} ∪ accepted s |}.

Definition disconnect (client_id : string) (s : State) : State :=
  match active_connections s !! client_id with
  | Some _ =>
      let '(store, registered) :=
        match client_tasks s !! client_id with
        | Some ts => (foldl cancel_if_pending (tasks s) ts,
                      delete client_id (client_tasks s))
        | None => (tasks s, client_tasks s)
        end in
      {| active_connections := delete client_id (active_connections s);
         client_tasks := registered;
         tasks := store;
         accepted := accepted s |}
  | None => s
  end.

Definition add_client_task (client_id : string) (task : nat) (s : State) : State :=
  match client_tasks s !! client_id with
  | Some ts =>
      {| active_connections := active_connections s;
         client_tasks := <[client_id := ts ++ [task]]> (client_tasks s);
         tasks := tasks s;
         accepted := accepted s |}
  | None => s
  end.

Definition is_client_connected (client_id : string) (s : State) : bool :=
  bool_decide (is_Some (active_connections s !! client_id)).

Definition get_client_count (s : State) : nat := size (active_connections s).

(** The tasks registered for a client ([[]] when it has no entry). *)
Definition tasks_of (client_id : string) (s : State) : list nat :=
  default [] (client_tasks s !! client_id).

(** "Re-registering an existing id tears the prior session down first":
    every task registered for the id that is still running carries a
    cancellation request once [connect] is through. *)
Definition connect_tears_down_prior
    (websocket : nat) (client_id : string) (s : State) : Prop :=
  is_Some (active_connections s !! client_id) ->
  ∀ task, task ∈ tasks_of client_id s ->
          tasks s !! task = Some Running ->
          tasks (connect websocket client_id s) !! task = Some CancelRequested.

(** What [if not task.done(): task.cancel()] makes of a task slot. *)
Definition after_cancel (slot : option TaskState) : option TaskState :=
  match slot with
  | Some Running => Some CancelRequested
  | _ => slot
  end.

(** Both dictionaries know the same clients. *)
Definition consistent (s : State) : Prop :=
  dom (client_tasks s) = dom (active_connections s).

(** [for client_id in ids: self.disconnect(client_id)] *)
Definition disconnect_each (ids : list string) (s : State) : State :=
  foldl (fun s client_id => disconnect client_id s) s ids.

Section Sending.

(** [await websocket.send_text(text)] on a socket handle: [true] when the
    text is delivered, [false] when the call raises.  A message is given by
    its JSON text. *)
Variable send_text : nat -> string -> bool.

(** Returns the new registry and the deliveries made, as (socket, text). *)
Definition send_personal_message (message client_id : string) (s : State)
  : State * list (nat * string) :=
  match active_connections s !! client_id with
  | Some websocket =>
      if send_text websocket message then (s, [(websocket, message)])
      else (disconnect client_id s, [])
  | None => (s, [])
  end.

(** One turn of the sending loop of [broadcast]: a delivery is logged, a
    failure puts the client on the [disconnected_clients] list. *)
Definition broadcast_step (message : string)
    (acc : list (nat * string) * list string) (item : string * nat)
  : list (nat * string) * list string :=
  if send_text item.2 message then (acc.1 ++ [(item.2, message)], acc.2)
  else (acc.1, acc.2 ++ [item.1]).

(** The clients are visited in the order [map_to_list] enumerates them, which
    is not the insertion order of a Python dictionary; the registry that
    results does not depend on it. *)
Definition broadcast (message : string) (s : State)
  : State * list (nat * string) :=
  if bool_decide (active_connections s = ∅) then (s, [])
  else
    let '(sent, disconnected_clients) :=
      foldl (broadcast_step message) ([], [])
            (map_to_list (active_connections s)) in
    (disconnect_each disconnected_clients s, sent).

End Sending.

(** [for client_id in list(self.active_connections.keys()): ...] *)
Definition disconnect_all (s : State) : State :=
  disconnect_each (map_to_list (active_connections s)).*1 s.

End WebSocketManager.

(** ** [main.py]: the two websocket request handlers *)

Module Main.

Record World : Type := {
  executor : CodeExecutor.World;
  rag : RAGService.World
}.

(** Outbound JSON messages, by their ["type"]. *)
Inductive Message : Type :=
| MsgError (message : string)
| MsgExecutionStart (language : string)
| MsgExecutionOutput (data : CodeExecutor.Event)
| MsgExecutionComplete
| MsgExplanationStart
| MsgExplanationChunk (data : string)
| MsgExplanationComplete.

(** [data.get(key, fallback)] on an inbound JSON object with string values *)
Definition get (data : gmap string string) (key fallback : string) : string :=
  default fallback (data !! key).

Definition send_json (m : Message) : M Message unit := emit m.

Definition handle_code_execution (w : World) (data : gmap string string)
  : M Message unit :=
  try_catch
    (let code := get data "code" EmptyString in
     let language := get data "language" "python" in
     if negb (Py.truthy (Py.strip code)) then
       send_json (MsgError "No code provided")
     else
       send_json (MsgExecutionStart language) ;;;
       relay MsgExecutionOutput
         (CodeExecutor.execute_streaming (executor w) code language) ;;;
       send_json MsgExecutionComplete)
    (fun e => send_json (MsgError ("Execution failed: " +:+ str_exn e))).

Definition handle_code_explanation (w : World) (data : gmap string string)
  : M Message unit :=
  try_catch
    (let code := get data "code" EmptyString in
     let output := get data "output" EmptyString in
     let error := get data "error" EmptyString in
     if negb (Py.truthy (Py.strip code)) then
       send_json (MsgError "No code provided for explanation")
     else
       send_json MsgExplanationStart ;;;
       relay MsgExplanationChunk
         (RAGService.explain_code_streaming (rag w) code output error) ;;;
       send_json MsgExplanationComplete)
    (fun e => send_json (MsgError ("Explanation failed: " +:+ str_exn e))).

(** What [await websocket.receive_json()] gives: a JSON object, the
    [WebSocketDisconnect] signal, or another exception. *)
Inductive Received : Type :=
| Json (data : gmap string string)
| Disconnect
| ReceiveError (e : exn).

(** How far a session got on the frames received so far. *)
Inductive SessionEnd : Type :=
| Waiting                 (* the loop awaits the next frame *)
| ClientGone              (* [except WebSocketDisconnect] *)
| Crashed (e : exn).      (* [except Exception] *)

(** [f"{action}"] for [action = data.get("action")] *)
Definition action_repr (action : option string) : string :=
  match action with
  | Some a => a
  | None => "None"
  end.

(** The body of the receive loop for one JSON object. *)
Definition dispatch (w : World) (data : gmap string string) : M Message unit :=
  let action := data !! "action" in
  if bool_decide (action = Some "execute_code") then
    handle_code_execution w data
  else if bool_decide (action = Some "explain_code") then
    handle_code_explanation w data
  else
    send_json (MsgError ("Unknown action: " +:+ action_repr action)).

(** [while True: data = await websocket.receive_json(); ...] *)
Fixpoint receive_loop (w : World) (frames : list Received)
  : M Message SessionEnd :=
  match frames with
  | [] => ret Waiting
  | Json data :: rest => dispatch w data ;;; receive_loop w rest
  | Disconnect :: _ => ret ClientGone
  | ReceiveError e :: _ => raise e
  end.

Definition websocket_endpoint (w : World) (websocket : nat) (client_id : string)
    (frames : list Received) (s : WebSocketManager.State)
  : WebSocketManager.State * M Message SessionEnd :=
  let s := WebSocketManager.connect websocket client_id s in
  match receive_loop w frames with
  | (t, Returns ClientGone) =>
      (WebSocketManager.disconnect client_id s, (t, Returns ClientGone))
  | (t, Raises (Exc e)) =>
      (s, (t ++ [Emit (MsgError "Internal server error")], Returns (Crashed e)))
  | run => (s, run)
  end.

(** What a REST route hands to the framework: a JSON body, or the
    [HTTPException] it raises. *)
Inductive Response (A : Type) : Type :=
| JSONResponse (content : A)
| HTTPException (status_code : Z) (detail : string).
Arguments JSONResponse {A} content.
Arguments HTTPException {A} status_code detail.

(** [JSONResponse(content=...)] encodes its content when it is built, inside
    the route's [try]; [render] says whether the encoding goes through. *)
Definition build_response {Y A} (render : A -> outcome unit) (content : A)
  : M Y (Response A) :=
  ([], lift (render content)) ;;; ret (JSONResponse content).


(** [POST /api/explain], on the fields of the request; the body is
    [{"explanation": ...}] *)
Definition explain_code_rest {Y}
    (render : string -> outcome unit)
    (w : World) (code output error : string)
  : M Y (Response string) :=
  try_catch
    (explanation <- RAGService.explain_code (rag w) code output error ;;
     build_response render explanation)
    (fun e => ret (HTTPException 500 (str_exn e))).

(** The request is one whose backend run comes back. *)
Definition request_comes_back (w : World) (data : gmap string string) : Prop :=
  data !! "action" = Some "execute_code" ->
  CodeExecutor.backend_comes_back (executor w)
    (get data "code" EmptyString) (get data "language" "python").

End Main.

(** ** Concrete worlds and requests used by the examples below *)

Module Examples.

(** No sandbox credential; [exec] prints two lines for one known program and
    fails with a division error otherwise; node never answers in time. *)
Definition local_world : CodeExecutor.World :=
  {| CodeExecutor.e2b_api_key := None;
     CodeExecutor.E2B_AVAILABLE := false;
     CodeExecutor.run_code := fun _ => Raises (Exception "no sandbox");
     CodeExecutor.exec := fun code =>
       if String.eqb code "print('a'); print('b')"
       then Returns ("a" +:+ Py.nl +:+ "b" +:+ Py.nl, EmptyString)
       else Raises (Exc (Exception "division by zero"));
     CodeExecutor.node := fun _ => Raises TimeoutError;
     CodeExecutor.time_start := 100;
     CodeExecutor.time_end := 103 |}.

(** A program that raises a bare [BaseException], reached through the
    subclasses of [object]; it needs no builtin. *)
Definition escaping_program : string :=
  "raise [c for c in ().__class__.__base__.__subclasses__() if c.__name__ == 'BaseException'][0]('boom')".

(** A program that never ends; [True] is a keyword. *)
Definition looping_program : string := "while True: pass".

(** No sandbox credential; [exec] on the two programs above ends as Python
    ends them, and prints nothing for any other program. *)
Definition unguarded_world : CodeExecutor.World :=
  {| CodeExecutor.e2b_api_key := None;
     CodeExecutor.E2B_AVAILABLE := false;
     CodeExecutor.run_code := fun _ => Raises (Exception "no sandbox");
     CodeExecutor.exec := fun code =>
       if String.eqb code escaping_program
       then Raises (BaseExc "BaseException('boom')")
       else if String.eqb code looping_program
       then Raises NoReturn
       else Returns (EmptyString, EmptyString);
     CodeExecutor.node := fun _ => Raises TimeoutError;
     CodeExecutor.time_start := 10;
     CodeExecutor.time_end := 11 |}.

(** A configured sandbox whose session cannot be opened. *)
Definition broken_sandbox_world : CodeExecutor.World :=
  {| CodeExecutor.e2b_api_key := Some "key";
     CodeExecutor.E2B_AVAILABLE := true;
     CodeExecutor.run_code := fun _ => Raises (Exception "connection refused");
     CodeExecutor.exec := fun _ => Returns (EmptyString, EmptyString);
     CodeExecutor.node := fun _ => Raises TimeoutError;
     CodeExecutor.time_start := 5;
     CodeExecutor.time_end := 9 |}.

Definition two_prints : string := "print('a'); print('b')".

(** A model that answers every prompt with the same 120 characters. *)
Definition long_answer : string :=
  "0123456789012345678901234567890123456789012345678901234567890123456789012345678901234567890123456789abcdefghijklmnopqrst".

Definition talking_model : RAGService.World :=
  {| RAGService.model := Some (fun _ => Returns long_answer) |}.

Definition failing_model : RAGService.World :=
  {| RAGService.model := Some (fun _ => Raises (Exception "quota exceeded")) |}.

Definition no_model : RAGService.World := {| RAGService.model := None |}.

Definition main_world : Main.World :=
  {| Main.executor := local_world; Main.rag := talking_model |}.

(** [{"action": "explain_code", "code": "   "}] *)
Definition blank_request : gmap string string :=
  {[ "action" := "explain_code"; "code" := "   " ]}.

(** Client [alice] is connected on socket 1 and owns the running task 7. *)
Definition alice_busy : WebSocketManager.State :=
  let s := WebSocketManager.connect 1 "alice" WebSocketManager.init in
  let s := WebSocketManager.add_client_task "alice" 7 s in
  {| WebSocketManager.active_connections := WebSocketManager.active_connections s;
     WebSocketManager.client_tasks := WebSocketManager.client_tasks s;
     WebSocketManager.tasks := {[ 7 := WebSocketManager.Running ]};
     WebSocketManager.accepted := WebSocketManager.accepted s |}.

(** A working sandbox: every program logs two lines and reports no error. *)
Definition sandbox_world : CodeExecutor.World :=
  {| CodeExecutor.e2b_api_key := Some "key";
     CodeExecutor.E2B_AVAILABLE := true;
     CodeExecutor.run_code := fun _ =>
       Returns {| CodeExecutor.logs :=
                    Some {| CodeExecutor.stdout := ["hello "; "world" +:+ Py.nl];
                            CodeExecutor.stderr := [] |};
                  CodeExecutor.results := [];
                  CodeExecutor.exec_error := None |};
     CodeExecutor.exec := fun _ => Returns (EmptyString, EmptyString);
     CodeExecutor.node := fun _ => Raises TimeoutError;
     CodeExecutor.time_start := 0;
     CodeExecutor.time_end := 2 |}.

(** The execution [sandbox_world] answers with. *)
Definition sandbox_answer : CodeExecutor.Execution :=
  {| CodeExecutor.logs :=
       Some {| CodeExecutor.stdout := ["hello "; "world" +:+ Py.nl];
               CodeExecutor.stderr := [] |};
     CodeExecutor.results := [];
     CodeExecutor.exec_error := None |}.


(** [{"action": "execute_code", "code": "puts 1", "language": "ruby"}] *)
Definition ruby_request : gmap string string :=
  {[ "action" := "execute_code"; "code" := "puts 1"; "language" := "ruby" ]}.

(** [{"action": "execute_code", "code": ""}] *)
Definition empty_run_request : gmap string string :=
  {[ "action" := "execute_code"; "code" := EmptyString ]}.

(** [{"action": "explain_code", "code": "x = 1"}] *)
Definition explain_request : gmap string string :=
  {[ "action" := "explain_code"; "code" := "x = 1" ]}.

(** [{"code": "x = 1"}]: the action is missing *)
Definition actionless_request : gmap string string :=
  {[ "code" := "x = 1" ]}.

(** No API key in the environment; the SDK would work. *)
Definition keyless_env : RAGService.Env :=
  {| RAGService.GOOGLE_API_KEY := None;
     RAGService.configure := fun _ => Returns tt;
     RAGService.GenerativeModel := fun _ => Returns (fun _ => Returns long_answer) |}.

(** An API key and a working SDK. *)
Definition keyed_env : RAGService.Env :=
  {| RAGService.GOOGLE_API_KEY := Some "secret";
     RAGService.configure := fun _ => Returns tt;
     RAGService.GenerativeModel := fun _ => Returns (fun _ => Returns long_answer) |}.

(** The handlers' world with the unguarded executor. *)
Definition unguarded_main : Main.World :=
  {| Main.executor := unguarded_world; Main.rag := no_model |}.

(** [{"action": "execute_code", "code": "while True: pass"}] *)
Definition looping_request : gmap string string :=
  {[ "action" := "execute_code"; "code" := looping_program ]}.

End Examples.

(** * Properties *)

(** ** The monad and the string primitives *)

Section MonadFacts.
Context {Y : Type}.

Lemma bind_Returns {A B} (t : list (Effect Y)) (a : A) (k : A -> M Y B) :
  bind (t, Returns a) k = (t ++ (k a).1, (k a).2).
Proof. unfold bind. by destruct (k a). Qed.

Lemma bind_Raises {A B} (t : list (Effect Y)) (e : abrupt) (k : A -> M Y B) :
  bind (t, Raises e) k = (t, Raises e).
Proof. done. Qed.

Lemma try_catch_Returns {A} (t : list (Effect Y)) (a : A) (h : exn -> M Y A) :
  try_catch (t, Returns a) h = (t, Returns a).
Proof. done. Qed.

Lemma try_catch_Raises {A} (t : list (Effect Y)) (e : exn) (h : exn -> M Y A) :
  try_catch (t, Raises (Exc e)) h = (t ++ (h e).1, (h e).2).
Proof. unfold try_catch. by destruct (h e). Qed.

(** What is not an [Exception] passes the handler. *)
Lemma try_catch_passes {A} (t : list (Effect Y)) (a : abrupt) (h : exn -> M Y A) :
  (∀ e, a ≠ Exc e) -> try_catch (t, Raises a) h = (t, Raises a).
Proof. intros Ha. destruct a as [e| |]; [by destruct (Ha e)|done|done]. Qed.

(** A loop that yields [f x] for the elements that pass a test yields the
    images of the filtered list. *)
Lemma for_each_filter_emit {X} (test : X -> bool) (f : X -> Y) (xs : list X) :
  for_each xs (fun x => if test x then emit (f x) else ret tt)
  = (map (fun x => Emit (f x)) (filter (fun x => test x = true) xs), Returns tt).
Proof.
  induction xs as [|x xs IH]; [done|].
  cbn [for_each]. rewrite IH, filter_cons.
  destruct (test x) eqn:Hx.
  - rewrite decide_True by done. unfold emit. by rewrite bind_Returns.
  - rewrite decide_False by done. unfold ret. by rewrite bind_Returns.
Qed.

Lemma for_each_emit {X} (f : X -> Y) (xs : list X) :
  for_each xs (fun x => emit (f x)) = (map (fun x => Emit (f x)) xs, Returns tt).
Proof.
  induction xs as [|x xs IH]; [done|].
  cbn [for_each]. rewrite IH. unfold emit. by rewrite bind_Returns.
Qed.

Lemma events_trace_app {A} (t1 t2 : list (Effect Y)) (r1 r2 r : result abrupt A) :
  events (t1 ++ t2, r) = events (t1, r1) ++ events (t2, r2).
Proof. unfold events. cbn. apply omap_app. Qed.


Lemma events_invoke_cons {A} (c : Call) (t : list (Effect Y)) (r : result abrupt A) :
  events (Invoke c :: t, r) = events (t, r).
Proof. done. Qed.

Lemma events_emits {A X} (f : X -> Y) (xs : list X) (r : result abrupt A) :
  events (map (fun x => Emit (f x)) xs, r) = map f xs.
Proof. unfold events. cbn. induction xs; [done|]. cbn. by f_equal. Qed.

Lemma calls_trace_app {A} (t1 t2 : list (Effect Y)) (r1 r2 r : result abrupt A) :
  calls (t1 ++ t2, r) = calls (t1, r1) ++ calls (t2, r2).
Proof. unfold calls. cbn. apply omap_app. Qed.

Lemma calls_invokes {A} (cs : list Call) (r : result abrupt A) :
  calls (map (@Invoke Y) cs, r) = cs.
Proof. unfold calls. cbn. induction cs; [done|]. cbn. by f_equal. Qed.

Lemma calls_emits {A X} (f : X -> Y) (xs : list X) (r : result abrupt A) :
  calls (map (fun x => Emit (f x)) xs, r) = [].
Proof. unfold calls. cbn. induction xs; [done|]. by cbn. Qed.

End MonadFacts.

Lemma append_cons (c : ascii) (s t : string) :
  String c s +:+ t = String c (s +:+ t).
Proof. done. Qed.

Lemma append_assoc (s1 s2 s3 : string) :
  (s1 +:+ s2) +:+ s3 = s1 +:+ (s2 +:+ s3).
Proof. induction s1 as [|c s1 IH]; [done|]. rewrite !append_cons. by f_equal. Qed.

Lemma append_nil_r (s : string) : s +:+ EmptyString = s.
Proof. induction s as [|c s IH]; [done|]. rewrite append_cons. by f_equal. Qed.

Lemma truthy_true (s : string) : Py.truthy s = true <-> s ≠ EmptyString.
Proof. destruct s; cbn; split; intros; done. Qed.

Lemma truthy_false (s : string) : Py.truthy s = false <-> s = EmptyString.
Proof. destruct s; cbn; split; intros; done. Qed.


(** ** The execution backend *)

Section ExecutorFacts.
Import CodeExecutor.
Variable w : World.

Lemma replay_lines_trace (mk : string -> Event) (text : string) :
  replay_lines mk text
  = (map (fun line => Emit (mk line)) (Py.nonblank_lines text), Returns tt).
Proof.
  unfold replay_lines, Py.nonblank_lines.
  destruct text as [|c text]; [done|].
  cbn [Py.truthy]. apply for_each_filter_emit.
Qed.

(** The sandbox path swallows every failure: it makes at most one call and
    returns a dictionary, the same one whoever the caller is. *)
Lemma _execute_with_e2b_total (code language : string) :
  ∃ cs r, ∀ Y, @_execute_with_e2b Y w code language = (map Invoke cs, Returns r).
Proof.
  unfold _execute_with_e2b, _execute_with_e2b_body.
  destruct (_is_e2b_enabled w); cbn [negb].
  - destruct (run_code w (sandbox_code code language)) as [execution|e] eqn:Hrun.
    + exists [SandboxRun (sandbox_code code language)], (process_execution execution).
      intros Y. unfold invoke, lift. by rewrite bind_Returns.
    + eexists [SandboxRun (sandbox_code code language)], _.
      intros Y. unfold invoke, lift. rewrite bind_Raises, try_catch_Raises. done.
  - eexists [], _. intros Y. unfold raise. rewrite try_catch_Raises. done.
Qed.

(** So does the local path, as long as [exec] comes back. *)
Lemma _execute_fallback_total (code language : string) :
  (language = "python" -> comes_back (exec w code)) ->
  ∃ cs r, ∀ Y, @_execute_fallback Y w code language = (map Invoke cs, Returns r).
Proof.
  intros Hback. unfold _execute_fallback.
  destruct (String.eqb_spec language "python") as [Hpy|Hpy].
  { specialize (Hback Hpy). unfold _execute_python_fallback, invoke_in_process.
    destruct (exec w code) as [captured|[e| |]]; try done.
    - eexists [PyExec code], _. intros Y. by rewrite bind_Returns.
    - eexists [PyExec code], _. intros Y.
      rewrite bind_Raises, try_catch_Raises. done. }
  destruct (String.eqb language "javascript").
  { unfold _execute_javascript_fallback, invoke, lift.
    destruct (node w code) as [process|e].
    - eexists [NodeRun code], _. intros Y. by rewrite bind_Returns.
    - destruct e; eexists [NodeRun code], _; intros Y;
        rewrite bind_Raises, try_catch_Raises; done. }
  eexists [], _. intros Y. done.
Qed.


Lemma valid_input_checks (code language : string) :
  valid_input code language ->
  negb (Py.contains supported_languages language) = false
  ∧ negb (Py.truthy (Py.strip code)) = false.
Proof.
  intros [Hl Hc]. split.
  - unfold Py.contains. by rewrite bool_decide_eq_true_2.
  - apply truthy_true in Hc. by rewrite Hc.
Qed.

(** On valid input both entry points run the selected backend once, on the
    same calls, and the stream is a replay of the dictionary [execute]
    reports: its non-blank output lines, its non-blank error lines, a
    [result] event and a closing [complete]. *)
Lemma valid_run (code language : string) :
  valid_input code language ->
  backend_comes_back w code language ->
  ∃ cs r exit_code,
    (∀ Y, @execute Y w code language
          = (map Invoke cs,
             Returns {| success := r_success r; output := r_output r;
                        error := r_error r;
                        execution_time := time_end w - time_start w;
                        language := language |}))
    ∧ execute_streaming w code language
      = (Emit (EvStart language (time_start w))
           :: map Invoke cs
           ++ map (fun line => Emit (EvStdout line)) (Py.nonblank_lines (r_output r))
           ++ map (fun line => Emit (EvStderr line)) (Py.nonblank_lines (r_error r))
           ++ [Emit (EvResult (r_success r) exit_code);
               Emit (EvComplete (time_end w - time_start w))],
         Returns tt).
Proof.
  intros [Hl Hc]%valid_input_checks Hback.
  unfold execute, execute_body, execute_streaming. rewrite Hl, Hc.
  unfold backend_comes_back in Hback.
  destruct (_is_e2b_enabled w) eqn:He.
  - destruct (_execute_with_e2b_total code language) as (cs & r & Hrun).
    exists cs, r, None. split.
    + intros Y. rewrite Hrun, bind_Returns. cbn. by rewrite app_nil_r.
    + unfold _execute_streaming_e2b. rewrite Hrun.
      rewrite !bind_Returns, !replay_lines_trace. cbn.
      by rewrite <- !app_assoc.
  - destruct (_execute_fallback_total code language (Hback eq_refl))
      as (cs & r & Hrun).
    exists cs, r, (Some (if r_success r then 0%Z else 1%Z)). split.
    + intros Y. rewrite Hrun, bind_Returns. cbn. by rewrite app_nil_r.
    + unfold _execute_streaming_fallback. rewrite Hrun.
      rewrite !bind_Returns, !replay_lines_trace. cbn.
      by rewrite <- !app_assoc.
Qed.

(** What [exec] raises outside [Exception], and its failure to return, pass
    both handlers of the fallback path: [execute] ends that way after the
    one call, [execute_streaming] after [start] and the call. *)
Lemma python_escape_run (code : string) (a : abrupt) :
  Py.strip code ≠ EmptyString ->
  _is_e2b_enabled w = false ->
  exec w code = Raises a ->
  (∀ e, a ≠ Exc e) ->
  (∀ Y, @execute Y w code "python" = ([Invoke (PyExec code)], Raises a))
  ∧ execute_streaming w code "python"
    = ([Emit (EvStart "python" (time_start w)); Invoke (PyExec code)], Raises a).
Proof.
  intros Hc%truthy_true He Hexec Ha.
  unfold execute, execute_body, execute_streaming, _execute_streaming_fallback.
  unfold _execute_fallback, _execute_python_fallback, invoke_in_process.
  rewrite He, Hc, Hexec, String.eqb_refl.
  assert (negb (Py.contains supported_languages "python") = false) as ->.
  { done. }
  cbn [negb]. split.
  - intros Y.
    repeat first [rewrite bind_Raises | rewrite try_catch_passes by done].
    done.
  - unfold emit.
    repeat first [rewrite bind_Raises | rewrite try_catch_passes by done
                 | rewrite bind_Returns; cbn [fst snd app]].
    done.
Qed.

(** Whether the backend run comes back can be told from the world. *)
Lemma backend_comes_back_or_escapes (code language : string) :
  backend_comes_back w code language
  ∨ (_is_e2b_enabled w = false ∧ language = "python"
     ∧ ∃ a, exec w code = Raises a ∧ ∀ e, a ≠ Exc e).
Proof.
  unfold backend_comes_back.
  destruct (_is_e2b_enabled w); [by left|].
  destruct (String.eqb_spec language "python") as [->|Hpy]; [|by left].
  destruct (exec w code) as [captured|[e| |]] eqn:Hexec.
  - by left.
  - by left.
  - right. split_and!; [done..|]. by eexists.
  - right. split_and!; [done..|]. by eexists.
Qed.

End ExecutorFacts.

Section ExecutorClaims.
Import CodeExecutor.




(** C2.  When the language is not a supported one, or the code is empty
    after stripping, [execute] returns a failed result and
    [execute_streaming] yields one [error] event and stops; neither makes
    any external call. *)
Theorem invalid_input_short_circuits (w : World) (code language : string) :
  language ∉ supported_languages ∨ Py.strip code = EmptyString ->
  (∃ r, @execute Event w code language = ([], Returns r) ∧ success r = false)
  ∧ (∃ msg, execute_streaming w code language
            = ([Emit (EvError msg None)], Returns tt)).
Proof.
  intros Hbad. unfold execute, execute_body, execute_streaming, Py.contains.
  destruct (bool_decide (language ∈ supported_languages)) eqn:Hl; cbn [negb].
  - destruct Hbad as [Hbad|Hbad].
    { by apply bool_decide_eq_true_1 in Hl. }
    rewrite Hbad. cbn. split; eauto.
  - cbn. split; eauto.
Qed.

Lemma invalid_input_short_circuits_witness :
  (∃ r, @execute Event Examples.local_world "1/0" "ruby" = ([], Returns r)
        ∧ success r = false)
  ∧ (∃ msg, execute_streaming Examples.local_world "1/0" "ruby"
            = ([Emit (EvError msg None)], Returns tt)).
Proof.
  apply (invalid_input_short_circuits Examples.local_world "1/0" "ruby").
  left. apply (bool_decide_unpack _). by vm_compute.
Defined.







(** C9.  For [bash], [r] and [java] the local fallback returns at once a
    failed result with empty output and an error text that ends in the name
    of the language; no external call is made. *)
Theorem fallback_rejects_other_languages
    (Y : Type) (w : World) (code language : string) :
  language ∈ ["bash"; "r"; "java"] ->
  @_execute_fallback Y w code language
  = ([], Returns {| r_success := false;
                    r_output := EmptyString;
                    r_error := "Fallback mode doesn't support " +:+ language |}).
Proof.
  intros Hl. unfold _execute_fallback.
  repeat (apply elem_of_cons in Hl as [->|Hl]; [done|]).
  by apply elem_of_nil in Hl.
Qed.

Lemma fallback_rejects_other_languages_witness :
  @_execute_fallback Event Examples.local_world "echo hi" "bash"
  = ([], Returns {| r_success := false;
                    r_output := EmptyString;
                    r_error := "Fallback mode doesn't support bash" |}).
Proof.
  apply (fallback_rejects_other_languages Event Examples.local_world
           "echo hi" "bash").
  apply (bool_decide_unpack _). by vm_compute.
Defined.

End ExecutorClaims.

(** ** The explanation backend *)

Section StringSlices.

Lemma length_append (s t : string) :
  String.length (s +:+ t) = String.length s + String.length t.
Proof.
  induction s as [|c s IH]; [done|].
  rewrite append_cons. cbn. by rewrite IH.
Qed.

Lemma length_take (n : nat) (s : string) :
  String.length (Py.take n s) = n `min` String.length s.
Proof.
  revert s. induction n as [|n IH]; intros [|c s]; cbn; try done.
  by rewrite IH.
Qed.

Lemma length_drop (n : nat) (s : string) :
  String.length (Py.drop n s) = String.length s - n.
Proof.
  revert s. induction n as [|n IH]; intros [|c s]; cbn; try done.
Qed.

Lemma take_all (n : nat) (s : string) :
  (String.length s <= n)%nat -> Py.take n s = s.
Proof.
  revert s. induction n as [|n IH]; intros [|c s]; cbn; try done.
  - lia.
  - intros Hn. rewrite IH; [done|lia].
Qed.

(** Two adjacent slices make one. *)
Lemma take_take_drop (n m : nat) (s : string) :
  Py.take n s +:+ Py.take m (Py.drop n s) = Py.take (n + m) s.
Proof.
  revert s. induction n as [|n IH]; intros s.
  - by destruct s.
  - destruct s as [|c s]; [by destruct m|].
    cbn [Py.take Py.drop Nat.add]. rewrite append_cons. by rewrite IH.
Qed.

Lemma slice_chunk (i n : nat) (s : string) :
  Py.slice i (i + n) s = Py.take n (Py.drop i s).
Proof. unfold Py.slice. by replace (i + n - i) with n by lia. Qed.

Lemma concat_empty_cons (x : string) (xs : list string) :
  String.concat EmptyString (x :: xs) = x +:+ String.concat EmptyString xs.
Proof. destruct xs; cbn; [by rewrite append_nil_r | done]. Qed.

Lemma concat_empty_app (xs ys : list string) :
  String.concat EmptyString (xs ++ ys)
  = String.concat EmptyString xs +:+ String.concat EmptyString ys.
Proof.
  induction xs as [|x xs IH]; [done|].
  rewrite <- app_comm_cons, !concat_empty_cons, IH. by rewrite append_assoc.
Qed.

(** The number of fragments covers the text. *)
Lemma ceil_div_covers (n step : nat) :
  0 < step -> (n <= (n + step - 1) / step * step)%nat.
Proof.
  intros Hstep.
  pose proof (Nat.div_mod_eq (n + step - 1) step) as Hdm.
  pose proof (Nat.mod_upper_bound (n + step - 1) step) as Hub.
  nia.
Qed.

(** Every fragment but the last starts a full step before the end. *)
Lemma ceil_div_tight (n step k : nat) :
  0 < step -> k < (n + step - 1) / step -> k * step < n.
Proof.
  intros Hstep Hk.
  pose proof (Nat.div_mod_eq (n + step - 1) step) as Hdm.
  nia.
Qed.

End StringSlices.

Section ExplainerFacts.
Import RAGService.

(** The first [m] fragments concatenate to the first [m * chunk_size]
    characters. *)
Lemma chunks_prefix (text : string) (m : nat) :
  String.concat EmptyString
    (map (fun i => Py.slice i (i + chunk_size) text)
         (map (fun k => k * chunk_size) (seq 0 m)))
  = Py.take (m * chunk_size) text.
Proof.
  induction m as [|m IH]; [by destruct text|].
  rewrite seq_S, !map_app, concat_empty_app, IH. cbn [map Nat.add].
  rewrite slice_chunk. cbn [String.concat].
  rewrite take_take_drop. f_equal. lia.
Qed.

Lemma chunks_concat (text : string) :
  String.concat EmptyString (chunks text) = text.
Proof.
  unfold chunks, Py.range_step. rewrite chunks_prefix.
  apply take_all, ceil_div_covers. unfold chunk_size. lia.
Qed.

Lemma chunks_lookup (text : string) (i : nat) (c : string) :
  chunks text !! i = Some c ->
  i * chunk_size < String.length text
  ∧ c = Py.take chunk_size (Py.drop (i * chunk_size) text)
  ∧ (S i < length (chunks text) -> S i * chunk_size < String.length text).
Proof.
  unfold chunks, Py.range_step. rewrite !length_map, length_seq.
  rewrite !list_lookup_fmap.
  destruct (seq 0 _ !! i) as [k|] eqn:Hk; [|done].
  apply lookup_seq in Hk as [-> Hlt]. cbn -[Py.slice chunk_size]. intros [= <-].
  split; [|split].
  - apply ceil_div_tight in Hlt; [done|]. unfold chunk_size. lia.
  - by rewrite slice_chunk.
  - intros Hnext. apply ceil_div_tight in Hnext; [done|]. unfold chunk_size. lia.
Qed.

Lemma fallback_has_header (code output error : string) :
  ∃ rest, _fallback_explanation code output error
          = "**Code Analysis** (Fallback mode - AI service unavailable)" +:+ rest.
Proof.
  unfold _fallback_explanation, Py.join.
  destruct (Py.truthy output), (Py.truthy error); cbn [app String.concat];
    by eexists.
Qed.

Lemma fallback_length (code output error : string) :
  chunk_size < String.length (_fallback_explanation code output error).
Proof.
  destruct (fallback_has_header code output error) as [rest ->].
  rewrite length_append. unfold chunk_size. cbn. lia.
Qed.

End ExplainerFacts.

Section ExplainerClaims.
Import RAGService.

(** C4.  When a model is configured and its call raises, [explain_code]
    returns the static fallback explanation and [explain_code_streaming]
    yields it as its only fragment; both end normally, and the fallback text
    is not empty. *)
Theorem model_failure_degrades_to_fallback
    (w : World) (code output error : string)
    (generate_content : string -> outcome string) (e : exn) :
  model w = Some generate_content ->
  generate_content (_create_explanation_prompt code output error) = Raises e ->
  (∀ Y, @explain_code Y w code output error
        = ([Invoke (GenerateContent (_create_explanation_prompt code output error))],
           Returns (_fallback_explanation code output error)))
  ∧ explain_code_streaming w code output error
    = ([Invoke (GenerateContent (_create_explanation_prompt code output error));
        Emit (_fallback_explanation code output error)],
       Returns tt)
  ∧ _fallback_explanation code output error ≠ EmptyString.
Proof.
  intros Hm Hraise. split; [|split].
  - intros Y. unfold explain_code, invoke, lift. rewrite Hm, Hraise.
    by rewrite bind_Raises, try_catch_Raises.
  - unfold explain_code_streaming, invoke, lift. rewrite Hm, Hraise.
    by rewrite bind_Raises, try_catch_Raises.
  - destruct (fallback_has_header code output error) as [rest ->]. done.
Qed.

Lemma model_failure_degrades_to_fallback_witness :
  (∀ Y, @explain_code Y Examples.failing_model "x = 1" EmptyString "boom"
        = ([Invoke (GenerateContent
                      (_create_explanation_prompt "x = 1" EmptyString "boom"))],
           Returns (_fallback_explanation "x = 1" EmptyString "boom")))
  ∧ explain_code_streaming Examples.failing_model "x = 1" EmptyString "boom"
    = ([Invoke (GenerateContent
                  (_create_explanation_prompt "x = 1" EmptyString "boom"));
        Emit (_fallback_explanation "x = 1" EmptyString "boom")],
       Returns tt)
  ∧ _fallback_explanation "x = 1" EmptyString "boom" ≠ EmptyString.
Proof.
  apply (model_failure_degrades_to_fallback Examples.failing_model
           "x = 1" EmptyString "boom"
           (fun _ => Raises (Exception "quota exceeded"))
           (Exception "quota exceeded")); reflexivity.
Defined.

(** C8.  When the model answers with a text, the fragments yielded by
    [explain_code_streaming] are the successive 50-character slices of that
    text: each has between 1 and 50 characters, each but the last exactly
    50, and concatenated in order they give the text back. *)
Theorem streaming_chunks_partition_text
    (w : World) (code output error : string)
    (generate_content : string -> outcome string) (text : string) :
  model w = Some generate_content ->
  generate_content (_create_explanation_prompt code output error) = Returns text ->
  events (explain_code_streaming w code output error) = chunks text
  ∧ (explain_code_streaming w code output error).2 = Returns tt
  ∧ String.concat EmptyString (chunks text) = text
  ∧ (∀ i c, chunks text !! i = Some c ->
            c = Py.slice (i * chunk_size) (i * chunk_size + chunk_size) text
            ∧ 1 <= String.length c <= chunk_size
            ∧ (S i < length (chunks text) -> String.length c = chunk_size)).
Proof.
  intros Hm Htext. split_and!.
  - unfold explain_code_streaming, invoke, lift. rewrite Hm, Htext.
    rewrite bind_Returns, for_each_emit. cbn [fst snd].
    rewrite try_catch_Returns.
    cbn [app]. by rewrite events_invoke_cons, events_emits.
  - unfold explain_code_streaming, invoke, lift. rewrite Hm, Htext.
    by rewrite bind_Returns, for_each_emit.
  - apply chunks_concat.
  - intros i c (Hlt & -> & Hnext)%chunks_lookup.
    split; [by rewrite slice_chunk|].
    rewrite length_take, length_drop. unfold chunk_size in *. split; [lia|].
    intros Hi%Hnext. lia.
Qed.

Lemma streaming_chunks_partition_text_witness :
  events (explain_code_streaming Examples.talking_model "x = 1"
            EmptyString EmptyString)
  = chunks Examples.long_answer
  ∧ (explain_code_streaming Examples.talking_model "x = 1"
       EmptyString EmptyString).2 = Returns tt
  ∧ String.concat EmptyString (chunks Examples.long_answer)
    = Examples.long_answer
  ∧ (∀ i c, chunks Examples.long_answer !! i = Some c ->
            c = Py.slice (i * chunk_size) (i * chunk_size + chunk_size)
                  Examples.long_answer
            ∧ 1 <= String.length c <= chunk_size
            ∧ (S i < length (chunks Examples.long_answer) ->
               String.length c = chunk_size)).
Proof.
  apply (streaming_chunks_partition_text Examples.talking_model "x = 1"
           EmptyString EmptyString (fun _ => Returns Examples.long_answer)
           Examples.long_answer); reflexivity.
Defined.

(** C10.  Without a model, [explain_code_streaming] yields the whole
    fallback explanation as one fragment and stops, although that text is
    longer than a chunk; no external call is made. *)
Theorem fallback_streams_single_fragment
    (w : World) (code output error : string) :
  model w = None ->
  explain_code_streaming w code output error
  = ([Emit (_fallback_explanation code output error)], Returns tt)
  ∧ chunk_size < String.length (_fallback_explanation code output error).
Proof.
  intros Hm. split.
  - unfold explain_code_streaming. by rewrite Hm.
  - apply fallback_length.
Qed.

Lemma fallback_streams_single_fragment_witness :
  explain_code_streaming Examples.no_model "x = 1" "1" EmptyString
  = ([Emit (_fallback_explanation "x = 1" "1" EmptyString)], Returns tt)
  ∧ chunk_size < String.length (_fallback_explanation "x = 1" "1" EmptyString).
Proof.
  apply (fallback_streams_single_fragment Examples.no_model
           "x = 1" "1" EmptyString).
  reflexivity.
Defined.

(** The service itself does not look at the code: called with blank code it
    still produces an explanation. *)
Remark explain_code_accepts_blank_code (Y : Type) :
  @explain_code Y Examples.no_model "   " EmptyString EmptyString
  = ([], Returns (_fallback_explanation "   " EmptyString EmptyString)).
Proof. reflexivity. Qed.

End ExplainerClaims.

(** ** The websocket handlers *)

Section HandlerClaims.
Import Main.

(** C7.  An explanation request whose code is empty after stripping is
    answered by one [error] message, "No code provided for explanation", and
    nothing else happens: the explanation service is not entered, so neither
    the model nor the fallback text is produced. *)
Theorem blank_code_explanation_rejected (w : World) (data : gmap string string) :
  Py.strip (get data "code" EmptyString) = EmptyString ->
  handle_code_explanation w data
  = ([Emit (MsgError "No code provided for explanation")], Returns tt).
Proof.
  intros Hblank. unfold handle_code_explanation. by rewrite Hblank.
Qed.

Lemma blank_code_explanation_rejected_witness :
  handle_code_explanation Examples.main_world Examples.blank_request
  = ([Emit (MsgError "No code provided for explanation")], Returns tt).
Proof.
  apply (blank_code_explanation_rejected Examples.main_world
           Examples.blank_request).
  by vm_compute.
Defined.

End HandlerClaims.

(** ** The connection registry *)

Section RegistryClaims.
Import WebSocketManager.

Lemma cancel_if_pending_other (store : gmap nat TaskState) (task other : nat) :
  other ≠ task -> cancel_if_pending store other !! task = store !! task.
Proof.
  intros Hne. unfold cancel_if_pending.
  destruct (store !! other) as [t|]; [|done].
  destruct (done t); [done|]. by rewrite lookup_insert_ne.
Qed.

Lemma cancel_if_pending_requested (store : gmap nat TaskState) (task other : nat) :
  store !! task = Some CancelRequested ->
  cancel_if_pending store other !! task = Some CancelRequested.
Proof.
  intros Hreq. destruct (decide (other = task)) as [->|Hne].
  - unfold cancel_if_pending. rewrite Hreq. cbn. by rewrite lookup_insert_eq.
  - by rewrite cancel_if_pending_other.
Qed.

Lemma cancel_all_requested (ts : list nat) (store : gmap nat TaskState) (task : nat) :
  store !! task = Some CancelRequested ->
  foldl cancel_if_pending store ts !! task = Some CancelRequested.
Proof.
  revert store. induction ts as [|t ts IH]; intros store Hreq; [done|].
  cbn. by apply IH, cancel_if_pending_requested.
Qed.

Lemma cancel_all_running (ts : list nat) (store : gmap nat TaskState) (task : nat) :
  task ∈ ts -> store !! task = Some Running ->
  foldl cancel_if_pending store ts !! task = Some CancelRequested.
Proof.
  revert store. induction ts as [|t ts IH]; intros store Hin Hrun.
  { by apply elem_of_nil in Hin. }
  cbn. destruct (decide (t = task)) as [->|Hne].
  - apply cancel_all_requested. unfold cancel_if_pending. rewrite Hrun. cbn.
    by rewrite lookup_insert_eq.
  - apply IH.
    + apply elem_of_cons in Hin as [->|Hin]; done.
    + by rewrite cancel_if_pending_other.
Qed.

(** The teardown lives in [disconnect]: it requests cancellation of every
    registered task that is still running. *)
Lemma disconnect_cancels_registered (client_id : string) (s : State) (task : nat) :
  is_Some (active_connections s !! client_id) ->
  task ∈ tasks_of client_id s ->
  tasks s !! task = Some Running ->
  tasks (disconnect client_id s) !! task = Some CancelRequested.
Proof.
  intros [ws Hws] Hin Hrun. unfold disconnect, tasks_of in *. rewrite Hws.
  destruct (client_tasks s !! client_id) as [ts|]; cbn in *.
  - by apply cancel_all_running.
  - by apply elem_of_nil in Hin.
Qed.

(** C6, as stated, fails: [alice] is connected and owns the running task 7;
    after a second [connect] under the same id the task is still running,
    with no cancellation request. *)
Lemma connect_leaves_prior_task_running :
  ¬ connect_tears_down_prior 2 "alice" Examples.alice_busy.
Proof.
  intros Hteardown.
  assert (tasks (connect 2 "alice" Examples.alice_busy) !! 7 = Some CancelRequested)
    as Hreq.
  { apply Hteardown.
    - apply (bool_decide_unpack _). by vm_compute.
    - apply (bool_decide_unpack _). by vm_compute.
    - by vm_compute. }
  vm_compute in Hreq. discriminate Hreq.
Qed.

(** C6, amended.  [connect] stores the new socket under the id and resets
    the id's task list to empty, whatever was registered before; it touches
    no task and no other client.  The tasks of a superseded connection are
    therefore left as they were, and a later [disconnect] of the id no
    longer reaches them. *)
Theorem connect_overwrites_without_teardown
    (websocket : nat) (client_id : string) (s : State) :
  active_connections (connect websocket client_id s) !! client_id = Some websocket
  ∧ client_tasks (connect websocket client_id s) !! client_id = Some []
  ∧ tasks (connect websocket client_id s) = tasks s
  ∧ (∀ other, other ≠ client_id ->
       active_connections (connect websocket client_id s) !! other
       = active_connections s !! other
       ∧ client_tasks (connect websocket client_id s) !! other
         = client_tasks s !! other)
  ∧ tasks (disconnect client_id (connect websocket client_id s)) = tasks s.
Proof.
  split_and!.
  - apply lookup_insert_eq.
  - apply lookup_insert_eq.
  - done.
  - intros other Hne. cbn. by rewrite !lookup_insert_ne.
  - unfold disconnect. cbn. by rewrite !lookup_insert_eq.
Qed.

End RegistryClaims.

(** ** Worked scenarios *)

Section Scenarios.
Import CodeExecutor.

(** Two prints through the local fallback: one [stdout] event per line. *)
Example scenario_two_prints :
  execute_streaming Examples.local_world Examples.two_prints "python"
  = ([Emit (EvStart "python" 100);
      Invoke (PyExec Examples.two_prints);
      Emit (EvStdout "a");
      Emit (EvStdout "b");
      Emit (EvResult true (Some 0%Z));
      Emit (EvComplete 3)],
     Returns tt).
Proof. by vm_compute. Qed.

(** A failing program: the failure travels as a [stderr] event and a
    [result] event with [success = false]; the stream still closes with
    [complete]. *)
Example scenario_division_by_zero :
  events (execute_streaming Examples.local_world "1/0" "python")
  = [EvStart "python" 100;
     EvStderr "division by zero";
     EvResult false (Some 1%Z);
     EvComplete 3].
Proof. by vm_compute. Qed.

(** A sandbox that cannot be reached is reported, not raised. *)
Example scenario_sandbox_down :
  @execute Event Examples.broken_sandbox_world "print(1)" "python"
  = ([Invoke (SandboxRun "print(1)")],
     Returns {| success := false;
                output := EmptyString;
                error := "E2B execution failed: connection refused";
                execution_time := 4;
                language := "python" |}).
Proof. by vm_compute. Qed.

Example scenario_sandbox_down_stream :
  events (execute_streaming Examples.broken_sandbox_world "print(1)" "python")
  = [EvStart "python" 5;
     EvStderr "E2B execution failed: connection refused";
     EvResult false None;
     EvComplete 4].
Proof. by vm_compute. Qed.

(** A bash snippet reaches the sandbox wrapped in a Python subprocess call. *)
Example scenario_bash_is_wrapped :
  calls (execute_streaming Examples.broken_sandbox_world "ls" "bash")
  = [SandboxRun (wrap_bash "ls")].
Proof. by vm_compute. Qed.

(** An explanation request with code is relayed fragment by fragment. *)
Example scenario_explanation_relay :
  events (Main.handle_code_explanation Examples.main_world {[ "code" := "x = 1" ]})
  = [Main.MsgExplanationStart;
     Main.MsgExplanationChunk
       "01234567890123456789012345678901234567890123456789";
     Main.MsgExplanationChunk
       "01234567890123456789012345678901234567890123456789";
     Main.MsgExplanationChunk "abcdefghijklmnopqrst";
     Main.MsgExplanationComplete].
Proof. by vm_compute. Qed.

(** After [disconnect], the running task of the example client carries a
    cancellation request and the client is gone from the registry. *)
Example scenario_disconnect_cancels :
  WebSocketManager.tasks
    (WebSocketManager.disconnect "alice" Examples.alice_busy) !! 7
  = Some WebSocketManager.CancelRequested
  ∧ WebSocketManager.is_client_connected "alice"
      (WebSocketManager.disconnect "alice" Examples.alice_busy) = false.
Proof. by vm_compute. Qed.

End Scenarios.

(** * Further properties of the code *)

(** ** More on the string primitives *)

Section StripFacts.

Lemma lstrip_head (s : string) :
  Py.lstrip s = EmptyString
  ∨ ∃ c t, Py.lstrip s = String c t ∧ Py.isspace c = false.
Proof.
  induction s as [|c s IH]; [by left|].
  cbn [Py.lstrip]. destruct (Py.isspace c) eqn:Hc; [done|].
  right. by exists c, s.
Qed.

Lemma rstrip_head (c : ascii) (t : string) :
  Py.isspace c = false -> ∃ t', Py.rstrip (String c t) = String c t'.
Proof.
  intros Hc. cbn [Py.rstrip]. destruct (Py.rstrip t) as [|c' r].
  - rewrite Hc. by eexists.
  - by eexists.
Qed.

Lemma rstrip_cons (c : ascii) (s : string) :
  Py.rstrip (String c s)
  = match Py.rstrip s with
    | EmptyString => if Py.isspace c then EmptyString else String c EmptyString
    | String c' r => String c (String c' r)
    end.
Proof. done. Qed.

Lemma rstrip_idempotent (s : string) : Py.rstrip (Py.rstrip s) = Py.rstrip s.
Proof.
  induction s as [|c s IH]; [done|].
  rewrite rstrip_cons. destruct (Py.rstrip s) as [|c' r] eqn:Hr.
  - destruct (Py.isspace c) eqn:Hc; [done|]. cbn. by rewrite Hc.
  - rewrite rstrip_cons. by rewrite IH.
Qed.

(** Stripping twice is stripping once. *)
Lemma strip_idempotent (s : string) : Py.strip (Py.strip s) = Py.strip s.
Proof.
  unfold Py.strip.
  destruct (lstrip_head s) as [->|(c & t & -> & Hc)]; [done|].
  destruct (rstrip_head c t Hc) as [t' Ht']. rewrite Ht'.
  cbn [Py.lstrip]. rewrite Hc, <- Ht'. apply rstrip_idempotent.
Qed.





End StripFacts.

(** ** More on the execution backend *)

Section ExecutorExtras.
Import CodeExecutor.
Variable w : World.

(** What [execute] does on valid input when the sandbox is enabled. *)
Lemma execute_on_sandbox (Y : Type) (code language : string) :
  valid_input code language -> _is_e2b_enabled w = true ->
  @execute Y w code language
  = ([Invoke (SandboxRun (sandbox_code code language))],
     Returns
       (let result :=
          match run_code w (sandbox_code code language) with
          | Returns execution => process_execution execution
          | Raises e => {| r_success := false;
                           r_output := EmptyString;
                           r_error := "E2B execution failed: " +:+ str_exn e |}
          end in
        {| success := r_success result; output := r_output result;
           error := r_error result;
           execution_time := time_end w - time_start w;
           language := language |})).
Proof.
  intros [Hl Hc]%valid_input_checks He.
  unfold execute, execute_body. rewrite Hl, Hc, He.
  unfold _execute_with_e2b, _execute_with_e2b_body, invoke, lift. rewrite He.
  cbn [negb]. by destruct (run_code w (sandbox_code code language)).
Qed.

(** What [execute] does on valid input without the sandbox. *)
Lemma execute_on_fallback (Y : Type) (code language : string) :
  valid_input code language -> _is_e2b_enabled w = false ->
  calls (@execute Y w code language)
  = if String.eqb language "python" then [PyExec code]
    else if String.eqb language "javascript" then [NodeRun code]
    else [].
Proof.
  intros [Hl Hc]%valid_input_checks He.
  unfold execute, execute_body. rewrite Hl, Hc, He.
  unfold _execute_fallback.
  destruct (String.eqb language "python").
  { unfold _execute_python_fallback, invoke_in_process.
    by destruct (exec w code) as [captured|[e| |]]. }
  destruct (String.eqb language "javascript"); [|done].
  unfold _execute_javascript_fallback, invoke, lift.
  by destruct (node w code) as [process|[]].
Qed.

Lemma calls_of_replay {X1 X2 : Type} (a b c : Event) (cs : list Call)
    (f : X1 -> Event) (g : X2 -> Event) (l1 : list X1) (l2 : list X2) :
  calls (Emit a :: map Invoke cs
           ++ map (fun x => Emit (f x)) l1
           ++ map (fun x => Emit (g x)) l2
           ++ [Emit b; Emit c], Returns tt) = cs.
Proof.
  change (Emit a :: ?t) with ([Emit a] ++ t).
  rewrite (calls_trace_app _ _ (Returns tt) (Returns tt)).
  rewrite (calls_trace_app _ _ (Returns tt) (Returns tt)), calls_invokes.
  rewrite (calls_trace_app _ _ (Returns tt) (Returns tt)), calls_emits.
  rewrite (calls_trace_app _ _ (Returns tt) (Returns tt)), calls_emits.
  cbn. by rewrite app_nil_r.
Qed.


(** The streaming entry point makes the calls [execute] makes. *)
Lemma streaming_calls (code language : string) :
  valid_input code language ->
  calls (execute_streaming w code language) = calls (@execute Event w code language).
Proof.
  intros Hv.
  destruct (backend_comes_back_or_escapes w code language)
    as [Hback|(He & -> & a & Hexec & Ha)].
  - destruct (valid_run w code language Hv Hback) as (cs & r & ec & He & Hs).
    by rewrite Hs, (He Event), calls_of_replay, calls_invokes.
  - destruct Hv as [_ Hc].
    destruct (python_escape_run w code a Hc He Hexec Ha) as [Hrun ->].
    by rewrite (Hrun Event).
Qed.


(** X1.  Which backend runs is fixed by the configuration alone.  With the
    sandbox enabled, a valid request makes exactly one sandbox call, whether
    or not that call succeeds, and never falls back to [exec] or node; with
    it disabled, python goes to [exec], javascript to node, and any other
    language makes no call at all.  Both entry points behave alike. *)
Theorem backend_selection (code language : string) :
  valid_input code language ->
  calls (@execute Event w code language)
  = (if _is_e2b_enabled w then [SandboxRun (sandbox_code code language)]
     else if String.eqb language "python" then [PyExec code]
     else if String.eqb language "javascript" then [NodeRun code]
     else [])
  ∧ calls (execute_streaming w code language)
    = calls (@execute Event w code language).
Proof.
  intros Hv. split; [|by apply streaming_calls].
  destruct (_is_e2b_enabled w) eqn:He.
  - by rewrite execute_on_sandbox.
  - by apply execute_on_fallback.
Qed.

(** X2.  When the sandbox session comes back, the reported output and error
    carry no leading or trailing whitespace, and the request counts as a
    success exactly when the sandbox reported no error. *)
Theorem sandbox_results_are_trimmed
    (code language : string) (execution : Execution) :
  valid_input code language -> _is_e2b_enabled w = true ->
  run_code w (sandbox_code code language) = Returns execution ->
  ∃ r, (@execute Event w code language).2 = Returns r
       ∧ Py.strip (output r) = output r
       ∧ Py.strip (error r) = error r
       ∧ (success r = true <-> exec_error execution = None).
Proof.
  intros Hv He Hrun. rewrite execute_on_sandbox, Hrun by done.
  eexists. split; [done|]. cbn [success output error].
  unfold process_execution.
  destruct (exec_error execution) as [msg|]; cbn -[Py.strip];
    rewrite !strip_idempotent; split_and!; done.
Qed.

(** X3.  The sandbox knows python, javascript and bash only: code in [r] or
    [java] is handed to it unchanged, exactly as python code is. *)
Theorem sandbox_runs_r_and_java_as_python (code language : string) :
  language ∈ ["python"; "r"; "java"] -> Py.strip code ≠ EmptyString ->
  _is_e2b_enabled w = true ->
  calls (@execute Event w code language) = [SandboxRun code]
  ∧ calls (execute_streaming w code language) = [SandboxRun code].
Proof.
  intros Hl Hc He.
  assert (valid_input code language ∧ sandbox_code code language = code)
    as [Hv Hsrc].
  { rewrite !elem_of_cons, elem_of_nil in Hl.
    destruct Hl as [->|[->|[->|[]]]]; (split; [split; [|done]|done]);
      apply (bool_decide_unpack _); by vm_compute. }
  rewrite streaming_calls, execute_on_sandbox by done.
  by rewrite Hsrc.
Qed.


End ExecutorExtras.

Section ExecutorExtrasWitnesses.
Import CodeExecutor.

Lemma backend_selection_witness :
  calls (@execute Event Examples.local_world Examples.two_prints "python")
  = [PyExec Examples.two_prints]
  ∧ calls (execute_streaming Examples.local_world Examples.two_prints "python")
    = calls (@execute Event Examples.local_world Examples.two_prints "python").
Proof.
  apply (backend_selection Examples.local_world Examples.two_prints "python").
  split; [by apply (bool_decide_unpack _); vm_compute | by vm_compute].
Defined.

Lemma sandbox_results_are_trimmed_witness :
  ∃ r, (@execute Event Examples.sandbox_world "print(1)" "python").2 = Returns r
       ∧ Py.strip (output r) = output r
       ∧ Py.strip (error r) = error r
       ∧ (success r = true <-> exec_error Examples.sandbox_answer = None).
Proof.
  apply (sandbox_results_are_trimmed Examples.sandbox_world "print(1)" "python"
           Examples.sandbox_answer).
  - split; [by apply (bool_decide_unpack _); vm_compute | by vm_compute].
  - by vm_compute.
  - reflexivity.
Defined.

Lemma sandbox_runs_r_and_java_as_python_witness :
  calls (@execute Event Examples.sandbox_world "x <- 1" "r")
  = [SandboxRun "x <- 1"]
  ∧ calls (execute_streaming Examples.sandbox_world "x <- 1" "r")
    = [SandboxRun "x <- 1"].
Proof.
  apply (sandbox_runs_r_and_java_as_python Examples.sandbox_world "x <- 1" "r").
  - apply (bool_decide_unpack _). by vm_compute.
  - by vm_compute.
  - by vm_compute.
Defined.


End ExecutorExtrasWitnesses.

(** ** More on the request handlers *)

Section RelayFacts.
Context {Y Z A : Type}.

Lemma events_relay (f : Y -> Z) (g : M Y A) :
  events (relay f g) = map f (events g).
Proof.
  destruct g as [t r]. unfold relay, events. cbn [fst].
  induction t as [|[y|c] t IH]; [done| |done]. cbn. by f_equal.
Qed.

Lemma calls_relay (f : Y -> Z) (g : M Y A) : calls (relay f g) = calls g.
Proof.
  destruct g as [t r]. unfold relay, calls. cbn [fst].
  induction t as [|[y|c] t IH]; [done|done|]. cbn. by f_equal.
Qed.

End RelayFacts.

Section GeneratorsReturn.

(** The execution stream ends normally when the backend run comes back; the
    explanation stream always does. *)
Lemma execute_streaming_returns (w : CodeExecutor.World) (code language : string) :
  CodeExecutor.backend_comes_back w code language ->
  (CodeExecutor.execute_streaming w code language).2 = Returns tt.
Proof.
  intros Hback.
  destruct (decide (language ∈ CodeExecutor.supported_languages)) as [Hl|Hl].
  - destruct (Py.strip code) as [|c rest] eqn:Hc.
    + unfold CodeExecutor.execute_streaming, Py.contains.
      by rewrite (bool_decide_eq_true_2 _ Hl), Hc.
    + assert (CodeExecutor.valid_input code language) as Hv.
      { split; [done|]. by rewrite Hc. }
      destruct (valid_run w code language Hv Hback) as (cs & r & ec & _ & Hs).
      by rewrite Hs.
  - unfold CodeExecutor.execute_streaming, Py.contains.
    by rewrite (bool_decide_eq_false_2 _ Hl).
Qed.

Lemma explain_code_streaming_returns
    (w : RAGService.World) (code output error : string) :
  (RAGService.explain_code_streaming w code output error).2 = Returns tt.
Proof.
  unfold RAGService.explain_code_streaming, invoke, lift.
  destruct (RAGService.model w) as [g|]; [|done].
  destruct (g _) as [text|e].
  - by rewrite bind_Returns, for_each_emit.
  - by rewrite bind_Raises, try_catch_Raises.
Qed.


Lemma explain_code_returns
    (Y : Type) (w : RAGService.World) (code output error : string) :
  ∃ text, (@RAGService.explain_code Y w code output error).2 = Returns text.
Proof.
  unfold RAGService.explain_code, invoke, lift.
  destruct (RAGService.model w) as [g|]; [|by eexists].
  destruct (g _) as [text|e].
  - rewrite bind_Returns. by eexists.
  - rewrite bind_Raises, try_catch_Raises. by eexists.
Qed.

End GeneratorsReturn.

Section HandlerExtras.
Import Main.

(** The trace of a handler that got past its blank-code check. *)
Lemma framed_relay {X : Type} (first last : Message) (f : X -> Message)
    (g : M X unit) (h : exn -> M Message unit) :
  g.2 = Returns tt ->
  try_catch (send_json first ;;; relay f g ;;; send_json last) h
  = (Emit first :: (relay f g).1 ++ [Emit last], Returns tt).
Proof.
  intros Hg. destruct g as [t r]. cbn in Hg. subst r.
  unfold send_json, emit, relay. cbn [fst snd].
  by rewrite !bind_Returns.
Qed.

Lemma handle_code_execution_trace (w : World) (data : gmap string string) :
  Py.strip (get data "code" EmptyString) ≠ EmptyString ->
  CodeExecutor.backend_comes_back (executor w)
    (get data "code" EmptyString) (get data "language" "python") ->
  handle_code_execution w data
  = (Emit (MsgExecutionStart (get data "language" "python"))
       :: (relay MsgExecutionOutput
             (CodeExecutor.execute_streaming (executor w)
                (get data "code" EmptyString)
                (get data "language" "python"))).1
       ++ [Emit MsgExecutionComplete],
     Returns tt).
Proof.
  intros Hcode%truthy_true Hback. unfold handle_code_execution. rewrite Hcode.
  cbn [negb]. by apply framed_relay, execute_streaming_returns.
Qed.

Lemma handle_code_explanation_trace (w : World) (data : gmap string string) :
  Py.strip (get data "code" EmptyString) ≠ EmptyString ->
  handle_code_explanation w data
  = (Emit MsgExplanationStart
       :: (relay MsgExplanationChunk
             (RAGService.explain_code_streaming (rag w)
                (get data "code" EmptyString)
                (get data "output" EmptyString)
                (get data "error" EmptyString))).1
       ++ [Emit MsgExplanationComplete],
     Returns tt).
Proof.
  intros Hcode%truthy_true. unfold handle_code_explanation. rewrite Hcode.
  cbn [negb]. apply framed_relay, explain_code_streaming_returns.
Qed.

Lemma events_framed {X A B : Type} (first last : Message) (f : X -> Message)
    (g : M X A) (r : result abrupt B) :
  events (Emit first :: (relay f g).1 ++ [Emit last], r)
  = first :: map f (events g) ++ [last].
Proof.
  change (Emit first :: ?t) with ([Emit first] ++ t).
  rewrite (events_trace_app _ _ r r), (events_trace_app _ _ r r).
  cbn. f_equal. f_equal. by rewrite <- events_relay.
Qed.

Lemma calls_framed {X A B : Type} (first last : Message) (f : X -> Message)
    (g : M X A) (r : result abrupt B) :
  calls (Emit first :: (relay f g).1 ++ [Emit last], r) = calls g.
Proof.
  change (Emit first :: ?t) with ([Emit first] ++ t).
  rewrite (calls_trace_app _ _ r r), (calls_trace_app _ _ r r).
  cbn. by rewrite app_nil_r, <- (calls_relay f g).
Qed.

(** The handlers end normally: the execution handler when the backend run
    comes back, the explanation handler always. *)
Lemma handle_code_execution_returns (w : World) (data : gmap string string) :
  CodeExecutor.backend_comes_back (executor w)
    (get data "code" EmptyString) (get data "language" "python") ->
  (handle_code_execution w data).2 = Returns tt.
Proof.
  intros Hback.
  destruct (Py.strip (get data "code" EmptyString)) as [|c rest] eqn:Hcode.
  - unfold handle_code_execution. by rewrite Hcode.
  - rewrite handle_code_execution_trace; [done| |done]. by rewrite Hcode.
Qed.

Lemma handle_code_explanation_returns (w : World) (data : gmap string string) :
  (handle_code_explanation w data).2 = Returns tt.
Proof.
  destruct (Py.strip (get data "code" EmptyString)) as [|c rest] eqn:Hcode.
  - unfold handle_code_explanation. by rewrite Hcode.
  - rewrite handle_code_explanation_trace; [done|]. by rewrite Hcode.
Qed.

Lemma dispatch_returns (w : World) (data : gmap string string) :
  request_comes_back w data -> (dispatch w data).2 = Returns tt.
Proof.
  unfold dispatch, request_comes_back. intros Hback.
  repeat case_bool_decide.
  - by apply handle_code_execution_returns, Hback.
  - apply handle_code_explanation_returns.
  - done.
Qed.

(** X5.  An execution request whose code is empty after stripping is
    answered by the single message "No code provided"; the executor is not
    entered and no external call is made. *)
Theorem blank_code_execution_rejected (w : World) (data : gmap string string) :
  Py.strip (get data "code" EmptyString) = EmptyString ->
  handle_code_execution w data
  = ([Emit (MsgError "No code provided")], Returns tt).
Proof.
  intros Hblank. unfold handle_code_execution. by rewrite Hblank.
Qed.


(** X7.  The handler does not check the language.  For a language the
    executor does not support the client still receives [execution_start]
    and [execution_complete]; the rejection travels in between, as the
    executor's own [error] event inside an [execution_output]. *)
Theorem unsupported_language_is_framed (w : World) (data : gmap string string) :
  Py.strip (get data "code" EmptyString) ≠ EmptyString ->
  get data "language" "python" ∉ CodeExecutor.supported_languages ->
  handle_code_execution w data
  = ([Emit (MsgExecutionStart (get data "language" "python"));
      Emit (MsgExecutionOutput
              (CodeExecutor.EvError
                 ("Unsupported language: " +:+ get data "language" "python")
                 None));
      Emit MsgExecutionComplete],
     Returns tt).
Proof.
  intros Hcode Hlang.
  assert (get data "language" "python" ≠ "python") as Hpy.
  { intros Heq. apply Hlang. rewrite Heq.
    apply (bool_decide_unpack _). by vm_compute. }
  rewrite handle_code_execution_trace; [|done|by intros _ ?].
  unfold CodeExecutor.execute_streaming, Py.contains.
  by rewrite (bool_decide_eq_false_2 _ Hlang).
Qed.

(** X8.  An explanation request with code is framed as
    [explanation_start], one [explanation_chunk] per fragment of the
    service's stream, and [explanation_complete]; it never ends in an error
    message of the handler. *)
Theorem explanation_request_framing (w : World) (data : gmap string string) :
  Py.strip (get data "code" EmptyString) ≠ EmptyString ->
  events (handle_code_explanation w data)
  = MsgExplanationStart
      :: map MsgExplanationChunk
           (events (RAGService.explain_code_streaming (rag w)
                      (get data "code" EmptyString)
                      (get data "output" EmptyString)
                      (get data "error" EmptyString)))
      ++ [MsgExplanationComplete]
  ∧ calls (handle_code_explanation w data)
    = calls (RAGService.explain_code_streaming (rag w)
               (get data "code" EmptyString)
               (get data "output" EmptyString)
               (get data "error" EmptyString))
  ∧ (handle_code_explanation w data).2 = Returns tt.
Proof.
  intros Hcode. rewrite handle_code_explanation_trace by done.
  split_and!.
  - apply events_framed.
  - apply calls_framed.
  - done.
Qed.

End HandlerExtras.

Section HandlerExtrasWitnesses.
Import Main.

Lemma blank_code_execution_rejected_witness :
  handle_code_execution Examples.main_world Examples.empty_run_request
  = ([Emit (MsgError "No code provided")], Returns tt).
Proof.
  apply (blank_code_execution_rejected Examples.main_world
           Examples.empty_run_request).
  by vm_compute.
Defined.


Lemma unsupported_language_is_framed_witness :
  handle_code_execution Examples.main_world Examples.ruby_request
  = ([Emit (MsgExecutionStart "ruby");
      Emit (MsgExecutionOutput
              (CodeExecutor.EvError "Unsupported language: ruby" None));
      Emit MsgExecutionComplete],
     Returns tt).
Proof.
  apply (unsupported_language_is_framed Examples.main_world
           Examples.ruby_request).
  - by vm_compute.
  - apply (bool_decide_unpack _). by vm_compute.
Defined.

Lemma explanation_request_framing_witness :
  events (handle_code_explanation Examples.main_world Examples.explain_request)
  = MsgExplanationStart
      :: map MsgExplanationChunk
           (events (RAGService.explain_code_streaming
                      (rag Examples.main_world)
                      (get Examples.explain_request "code" EmptyString)
                      (get Examples.explain_request "output" EmptyString)
                      (get Examples.explain_request "error" EmptyString)))
      ++ [MsgExplanationComplete]
  ∧ calls (handle_code_explanation Examples.main_world Examples.explain_request)
    = calls (RAGService.explain_code_streaming
               (rag Examples.main_world)
               (get Examples.explain_request "code" EmptyString)
               (get Examples.explain_request "output" EmptyString)
               (get Examples.explain_request "error" EmptyString))
  ∧ (handle_code_explanation Examples.main_world Examples.explain_request).2
    = Returns tt.
Proof.
  apply (explanation_request_framing Examples.main_world
           Examples.explain_request).
  by vm_compute.
Defined.

End HandlerExtrasWitnesses.

(** ** More on the connection registry: what [disconnect] leaves *)

Section RegistryBasics.
Import WebSocketManager.

Lemma disconnect_connections (client_id : string) (s : State) :
  active_connections (disconnect client_id s)
  = delete client_id (active_connections s).
Proof.
  unfold disconnect.
  destruct (active_connections s !! client_id) as [ws|] eqn:Hws.
  - by destruct (client_tasks s !! client_id).
  - by rewrite delete_id.
Qed.

Lemma disconnect_client_tasks (client_id : string) (s : State) :
  is_Some (active_connections s !! client_id) ->
  client_tasks (disconnect client_id s) = delete client_id (client_tasks s).
Proof.
  intros [ws Hws]. unfold disconnect. rewrite Hws.
  destruct (client_tasks s !! client_id) as [ts|] eqn:Hts; cbn; [done|].
  by rewrite delete_id.
Qed.

Lemma disconnect_absent (client_id : string) (s : State) :
  active_connections s !! client_id = None -> disconnect client_id s = s.
Proof. intros Hws. unfold disconnect. by rewrite Hws. Qed.

Lemma disconnect_accepted (client_id : string) (s : State) :
  accepted (disconnect client_id s) = accepted s.
Proof.
  unfold disconnect. destruct (active_connections s !! client_id); [|done].
  by destruct (client_tasks s !! client_id).
Qed.

Lemma disconnect_not_connected (client_id : string) (s : State) :
  is_client_connected client_id (disconnect client_id s) = false.
Proof.
  unfold is_client_connected.
  rewrite disconnect_connections, lookup_delete_eq.
  apply bool_decide_eq_false_2. by intros [? ?].
Qed.

End RegistryBasics.

(** ** The websocket session and the REST routes *)

Section SessionExtras.
Import Main.

Lemma receive_loop_json (w : World) (data : gmap string string)
    (rest : list Received) :
  request_comes_back w data ->
  receive_loop w (Json data :: rest)
  = ((dispatch w data).1 ++ (receive_loop w rest).1, (receive_loop w rest).2).
Proof.
  intros Hback. cbn [receive_loop].
  pose proof (dispatch_returns w data Hback) as Hd.
  destruct (dispatch w data) as [t r]. cbn in Hd. subst r.
  by rewrite bind_Returns.
Qed.



(** X10.  A JSON object whose action is neither [execute_code] nor
    [explain_code] is answered by one error message naming the action
    ([None] when the key is missing); no backend is called and the loop goes
    on with the next frame. *)
Theorem unknown_action_is_reported
    (w : World) (data : gmap string string) (rest : list Received) :
  data !! "action" ≠ Some "execute_code" ->
  data !! "action" ≠ Some "explain_code" ->
  receive_loop w (Json data :: rest)
  = (Emit (MsgError ("Unknown action: " +:+ action_repr (data !! "action")))
       :: (receive_loop w rest).1,
     (receive_loop w rest).2).
Proof.
  intros Hexec Hexpl. rewrite receive_loop_json by (by intros ?).
  unfold dispatch. by rewrite !bool_decide_eq_false_2.
Qed.



End SessionExtras.


Lemma unknown_action_is_reported_witness :
  Main.receive_loop Examples.main_world [Main.Json Examples.actionless_request]
  = ([Emit (Main.MsgError "Unknown action: None")], Returns Main.Waiting).
Proof.
  apply (unknown_action_is_reported Examples.main_world
           Examples.actionless_request []); by vm_compute.
Defined.



(** ** More on the explanation backend *)

Section ExplainerExtras.
Import RAGService.

(** X13.  The two explanation methods agree.  [explain_code] always returns
    a text; [explain_code_streaming] always ends normally, makes the same
    model call (one at most, on the prompt built from the request), and the
    fragments it yields concatenate to the text [explain_code] returns. *)
Theorem streaming_explanation_replays_text
    (w : World) (code output error : string) :
  ∃ text,
    (@explain_code string w code output error).2 = Returns text
    ∧ (explain_code_streaming w code output error).2 = Returns tt
    ∧ String.concat EmptyString
        (events (explain_code_streaming w code output error)) = text
    ∧ calls (explain_code_streaming w code output error)
      = calls (@explain_code string w code output error)
    ∧ calls (@explain_code string w code output error)
      = match model w with
        | Some _ =>
            [GenerateContent (_create_explanation_prompt code output error)]
        | None => []
        end.
Proof.
  destruct (model w) as [generate_content|] eqn:Hm.
  - destruct (generate_content (_create_explanation_prompt code output error))
      as [text|e] eqn:Hg.
    + assert (@explain_code string w code output error
              = ([Invoke (GenerateContent
                            (_create_explanation_prompt code output error))],
                 Returns text)) as ->.
      { unfold explain_code, invoke, lift. by rewrite Hm, Hg. }
      assert (explain_code_streaming w code output error
              = (Invoke (GenerateContent
                           (_create_explanation_prompt code output error))
                   :: map (fun i => Emit (Py.slice i (i + chunk_size) text))
                        (Py.range_step (String.length text) chunk_size),
                 Returns tt)) as ->.
      { unfold explain_code_streaming, invoke, lift. rewrite Hm, Hg.
        by rewrite bind_Returns, for_each_emit. }
      exists text. split_and!; try done.
      * rewrite events_invoke_cons, events_emits. apply chunks_concat.
      * change (Invoke ?c :: ?t) with ([Invoke c] ++ t) at 1.
        rewrite (calls_trace_app _ _ (Returns tt) (Returns tt)), calls_emits.
        done.
    + assert (@explain_code string w code output error
              = ([Invoke (GenerateContent
                            (_create_explanation_prompt code output error))],
                 Returns (_fallback_explanation code output error))) as ->.
      { unfold explain_code, invoke, lift. rewrite Hm, Hg.
        by rewrite bind_Raises, try_catch_Raises. }
      assert (explain_code_streaming w code output error
              = ([Invoke (GenerateContent
                            (_create_explanation_prompt code output error));
                  Emit (_fallback_explanation code output error)],
                 Returns tt)) as ->.
      { unfold explain_code_streaming, invoke, lift. rewrite Hm, Hg.
        by rewrite bind_Raises, try_catch_Raises. }
      eexists. split_and!; done.
  - assert (@explain_code string w code output error
            = ([], Returns (_fallback_explanation code output error))) as ->.
    { unfold explain_code. by rewrite Hm. }
    assert (explain_code_streaming w code output error
            = ([Emit (_fallback_explanation code output error)], Returns tt))
      as ->.
    { unfold explain_code_streaming. by rewrite Hm. }
    eexists. split_and!; done.
Qed.

(** X14.  [initialize] always leaves the service marked initialized, and
    the model is set exactly when the key is present and non-empty and both
    SDK calls come back. *)
Theorem initialize_outcome (env : Env) :
  is_initialized (initialize env (new env)) = true
  ∧ google_api_key (initialize env (new env)) = GOOGLE_API_KEY env
  ∧ (∀ m, svc_model (initialize env (new env)) = Some m
          <-> ∃ key, GOOGLE_API_KEY env = Some key
                     ∧ key ≠ EmptyString
                     ∧ configure env key = Returns tt
                     ∧ GenerativeModel env model_name = Returns m).
Proof.
  unfold initialize, new, is_initialized. cbn [google_api_key svc_model].
  destruct (GOOGLE_API_KEY env) as [[|c key]|] eqn:Hkey.
  - split_and!; try done. intros m. split; [done|].
    by intros (key & [= <-] & Hne & _).
  - destruct (configure env (String c key)) as [[]|e] eqn:Hconf.
    + destruct (GenerativeModel env model_name) as [m'|e] eqn:Hmodel.
      * split_and!; try done. intros m. cbn. split.
        -- intros [= <-]. by exists (String c key).
        -- intros (key' & [= <-] & _ & _ & Hm). congruence.
      * split_and!; try done. intros m. cbn. split; [done|].
        intros (key' & [= <-] & _ & _ & Hm). congruence.
    + split_and!; try done. intros m. cbn. split; [done|].
      intros (key' & [= <-] & _ & Hc & _). congruence.
  - split_and!; try done. intros m. split; [done|].
    by intros (key & [=] & _).
Qed.

(** X15.  A service initialized without an API key (unset or empty) answers
    every explanation request with the fallback text, streamed as a single
    fragment, and never calls a model. *)
Theorem keyless_service_uses_fallback
    (env : Env) (code output error : string) :
  GOOGLE_API_KEY env = None ∨ GOOGLE_API_KEY env = Some EmptyString ->
  is_initialized (initialize env (new env)) = true
  ∧ (∀ Y, @explain_code Y (world_of (initialize env (new env))) code output error
          = ([], Returns (_fallback_explanation code output error)))
  ∧ explain_code_streaming (world_of (initialize env (new env))) code output error
    = ([Emit (_fallback_explanation code output error)], Returns tt).
Proof.
  intros Hkey.
  assert (svc_model (initialize env (new env)) = None) as Hnone.
  { unfold initialize, new. cbn [google_api_key svc_model].
    by destruct Hkey as [-> | ->]. }
  split_and!.
  - unfold initialize, new, is_initialized. cbn [google_api_key].
    by destruct Hkey as [-> | ->].
  - intros Y. unfold explain_code, world_of. cbn [model]. by rewrite Hnone.
  - unfold explain_code_streaming, world_of. cbn [model]. by rewrite Hnone.
Qed.

End ExplainerExtras.

Lemma keyless_service_uses_fallback_witness :
  RAGService.is_initialized
    (RAGService.initialize Examples.keyless_env
       (RAGService.new Examples.keyless_env)) = true
  ∧ (∀ Y, @RAGService.explain_code Y
            (RAGService.world_of
               (RAGService.initialize Examples.keyless_env
                  (RAGService.new Examples.keyless_env)))
            "x = 1" EmptyString EmptyString
          = ([], Returns (RAGService._fallback_explanation
                            "x = 1" EmptyString EmptyString)))
  ∧ RAGService.explain_code_streaming
      (RAGService.world_of
         (RAGService.initialize Examples.keyless_env
            (RAGService.new Examples.keyless_env)))
      "x = 1" EmptyString EmptyString
    = ([Emit (RAGService._fallback_explanation "x = 1" EmptyString EmptyString)],
       Returns tt).
Proof.
  apply (keyless_service_uses_fallback Examples.keyless_env
           "x = 1" EmptyString EmptyString).
  left. reflexivity.
Defined.

(** ** More on the connection registry *)

Section RegistryExtras.
Import WebSocketManager.

Lemma after_cancel_idempotent (slot : option TaskState) :
  after_cancel (after_cancel slot) = after_cancel slot.
Proof. by destruct slot as [[]|]. Qed.

Lemma cancel_if_pending_lookup (store : gmap nat TaskState) (a task : nat) :
  cancel_if_pending store a !! task
  = if decide (a = task) then after_cancel (store !! task) else store !! task.
Proof.
  unfold cancel_if_pending. destruct (decide (a = task)) as [->|Hne].
  - destruct (store !! task) as [[]|] eqn:Hs; cbn; rewrite ?lookup_insert_eq; done.
  - destruct (store !! a) as [t|]; [|done].
    destruct (done t); [done|]. by rewrite lookup_insert_ne.
Qed.

Lemma cancel_all_lookup (ts : list nat) (store : gmap nat TaskState) (task : nat) :
  foldl cancel_if_pending store ts !! task
  = if decide (task ∈ ts) then after_cancel (store !! task) else store !! task.
Proof.
  revert store. induction ts as [|a ts IH]; intros store.
  { rewrite decide_False; [done|]. apply not_elem_of_nil. }
  cbn [foldl]. rewrite IH, cancel_if_pending_lookup.
  destruct (decide (a = task)) as [->|Hne].
  - rewrite (decide_True (P:=task ∈ task :: ts)) by apply list_elem_of_here.
    destruct (decide (task ∈ ts)); [apply after_cancel_idempotent|done].
  - destruct (decide (task ∈ ts)) as [Hin|Hnin].
    + by rewrite decide_True by (by apply list_elem_of_further).
    + rewrite decide_False; [done|].
      intros [?|?]%elem_of_cons; congruence.
Qed.

(** What [disconnect] does to the task store. *)
Lemma disconnect_tasks_lookup (client_id : string) (s : State) (task : nat) :
  tasks (disconnect client_id s) !! task
  = if decide (is_Some (active_connections s !! client_id)
               ∧ task ∈ tasks_of client_id s)
    then after_cancel (tasks s !! task) else tasks s !! task.
Proof.
  unfold disconnect, tasks_of.
  destruct (active_connections s !! client_id) as [ws|] eqn:Hws.
  - destruct (client_tasks s !! client_id) as [ts|] eqn:Hts; cbn.
    + rewrite cancel_all_lookup.
      destruct (decide (task ∈ ts)) as [Hin|Hnin].
      * by rewrite decide_True.
      * rewrite decide_False; [done|]. by intros [_ ?].
    + rewrite decide_False; [done|]. intros [_ Hin]. by apply elem_of_nil in Hin.
  - rewrite decide_False; [done|]. by intros [[? ?] _].
Qed.

Lemma disconnect_other (client_id other : string) (s : State) :
  other ≠ client_id ->
  active_connections (disconnect other s) !! client_id
  = active_connections s !! client_id
  ∧ client_tasks (disconnect other s) !! client_id
    = client_tasks s !! client_id.
Proof.
  intros Hne. rewrite disconnect_connections, lookup_delete_ne by done.
  split; [done|].
  destruct (active_connections s !! other) as [ws|] eqn:Hws.
  - rewrite disconnect_client_tasks by eauto. by rewrite lookup_delete_ne.
  - by rewrite disconnect_absent.
Qed.

(** X16.  [disconnect] is safe to repeat: for a client that is not
    connected it changes nothing, and a second [disconnect] of the same
    client changes nothing more. *)
Theorem disconnect_idempotent (client_id : string) (s : State) :
  disconnect client_id (disconnect client_id s) = disconnect client_id s
  ∧ (active_connections s !! client_id = None -> disconnect client_id s = s).
Proof.
  split; [|apply disconnect_absent].
  apply disconnect_absent. by rewrite disconnect_connections, lookup_delete_eq.
Qed.

(** X17.  Connecting a fresh client and disconnecting it again gives the
    registry back: both dictionaries and the task store are as before. *)
Theorem connect_disconnect_round_trip
    (websocket : nat) (client_id : string) (s : State) :
  active_connections s !! client_id = None ->
  client_tasks s !! client_id = None ->
  active_connections (disconnect client_id (connect websocket client_id s))
    = active_connections s
  ∧ client_tasks (disconnect client_id (connect websocket client_id s))
    = client_tasks s
  ∧ tasks (disconnect client_id (connect websocket client_id s)) = tasks s.
Proof.
  intros Hws Hts. unfold disconnect. cbn. rewrite !lookup_insert_eq. cbn.
  by rewrite !delete_insert_eq, !delete_id.
Qed.

(** X18.  The client count follows the registry: [connect] adds one for a
    new id and nothing for an id already present; [disconnect] takes one
    away for a connected id and nothing otherwise. *)
Theorem client_count_changes (websocket : nat) (client_id : string) (s : State) :
  (active_connections s !! client_id = None ->
   get_client_count (connect websocket client_id s) = S (get_client_count s)
   ∧ get_client_count (disconnect client_id s) = get_client_count s)
  ∧ (is_Some (active_connections s !! client_id) ->
     get_client_count (connect websocket client_id s) = get_client_count s
     ∧ S (get_client_count (disconnect client_id s)) = get_client_count s).
Proof.
  unfold get_client_count. split.
  - intros Hnone. split.
    + cbn. by apply map_size_insert_None.
    + by rewrite disconnect_absent.
  - intros [ws Hws]. split.
    + cbn. apply map_size_insert_Some. eauto.
    + rewrite disconnect_connections.
      assert (is_Some (active_connections s !! client_id)) as Hsome by eauto.
      pose proof (map_size_delete_Some client_id (active_connections s) Hsome)
        as Hsize.
      pose proof (map_size_ne_0_lookup_2 (active_connections s) client_id Hsome).
      lia.
Qed.

(** X19.  [disconnect] of a connected client requests cancellation of
    exactly the running tasks registered for it: a finished task, a task
    already asked to cancel and a task not on the client's list are left as
    they are. *)
Theorem disconnect_task_effect (client_id : string) (s : State) :
  is_Some (active_connections s !! client_id) ->
  ∀ task,
    tasks (disconnect client_id s) !! task
    = if decide (task ∈ tasks_of client_id s)
      then after_cancel (tasks s !! task) else tasks s !! task.
Proof.
  intros Hws task. rewrite disconnect_tasks_lookup.
  destruct (decide (task ∈ tasks_of client_id s)) as [Hin|Hnin].
  - by rewrite decide_True.
  - rewrite decide_False; [done|]. by intros [_ ?].
Qed.

End RegistryExtras.

Section RegistrySweeps.
Import WebSocketManager.

Lemma disconnect_each_connections (ids : list string) (s : State) (client_id : string) :
  active_connections (disconnect_each ids s) !! client_id
  = if decide (client_id ∈ ids) then None
    else active_connections s !! client_id.
Proof.
  revert s. induction ids as [|a ids IH]; intros s.
  { rewrite decide_False; [done|]. apply not_elem_of_nil. }
  change (disconnect_each (a :: ids) s)
    with (disconnect_each ids (disconnect a s)).
  rewrite IH, disconnect_connections.
  destruct (decide (client_id ∈ ids)) as [Hin|Hnin].
  - by rewrite decide_True by (by apply list_elem_of_further).
  - destruct (decide (a = client_id)) as [->|Hne].
    + rewrite decide_True by apply list_elem_of_here. apply lookup_delete_eq.
    + rewrite decide_False, lookup_delete_ne; [done..|].
      intros [?|?]%elem_of_cons; congruence.
Qed.

Lemma consistent_connect (websocket : nat) (client_id : string) (s : State) :
  consistent s -> consistent (connect websocket client_id s).
Proof.
  unfold consistent. intros Hs. cbn. by rewrite !dom_insert_L, Hs.
Qed.

Lemma consistent_disconnect (client_id : string) (s : State) :
  consistent s -> consistent (disconnect client_id s).
Proof.
  unfold consistent. intros Hs.
  destruct (active_connections s !! client_id) as [ws|] eqn:Hws.
  - rewrite disconnect_connections, disconnect_client_tasks by eauto.
    by rewrite !dom_delete_L, Hs.
  - by rewrite disconnect_absent.
Qed.

Lemma consistent_disconnect_each (ids : list string) (s : State) :
  consistent s -> consistent (disconnect_each ids s).
Proof.
  revert s. induction ids as [|a ids IH]; intros s Hs; [done|].
  apply IH. by apply consistent_disconnect.
Qed.

Lemma consistent_add_client_task (client_id : string) (task : nat) (s : State) :
  consistent s -> consistent (add_client_task client_id task s).
Proof.
  unfold consistent, add_client_task. intros Hs.
  destruct (client_tasks s !! client_id) as [ts|] eqn:Hts; [|done].
  cbn. rewrite dom_insert_lookup_L; [done|]. eauto.
Qed.

(** The two lists the sending loop of [broadcast] builds. *)
Lemma broadcast_fold (send_text : nat -> string -> bool) (message : string)
    (items : list (string * nat))
    (sent : list (nat * string)) (failed : list string) :
  foldl (broadcast_step send_text message) (sent, failed) items
  = (sent ++ map (fun item => (item.2, message))
               (filter (fun item => send_text item.2 message = true) items),
     failed ++ (filter (fun item => send_text item.2 message = false) items).*1).
Proof.
  revert sent failed. induction items as [|item items IH]; intros sent failed.
  { cbn. by rewrite !app_nil_r. }
  cbn [foldl]. unfold broadcast_step at 2. rewrite !filter_cons.
  destruct (send_text item.2 message) eqn:Hsend; cbn [fst snd].
  - rewrite IH, decide_True, decide_False by done.
    cbn. by rewrite <- app_assoc.
  - rewrite IH, decide_False, decide_True by done.
    cbn. by rewrite <- app_assoc.
Qed.

Lemma broadcast_unfold (send_text : nat -> string -> bool) (message : string)
    (s : State) :
  broadcast send_text message s
  = (disconnect_each
       (filter (fun item => send_text item.2 message = false)
               (map_to_list (active_connections s))).*1 s,
     map (fun item => (item.2, message))
         (filter (fun item => send_text item.2 message = true)
                 (map_to_list (active_connections s)))).
Proof.
  unfold broadcast. case_bool_decide as Hempty.
  - rewrite Hempty, map_to_list_empty. done.
  - by rewrite broadcast_fold.
Qed.

Lemma failed_clients (send_text : nat -> string -> bool) (message : string)
    (s : State) (client_id : string) :
  client_id ∈ (filter (fun item => send_text item.2 message = false)
                      (map_to_list (active_connections s))).*1
  <-> ∃ ws, active_connections s !! client_id = Some ws
            ∧ send_text ws message = false.
Proof.
  rewrite list_elem_of_fmap. split.
  - intros ([cid ws] & -> & [Hfail Hin]%list_elem_of_filter).
    apply elem_of_map_to_list in Hin. by exists ws.
  - intros (ws & Hws & Hfail). exists (client_id, ws). split; [done|].
    apply list_elem_of_filter. split; [done|]. by apply elem_of_map_to_list.
Qed.

(** X20.  Every operation of the manager keeps its two dictionaries on the
    same set of clients: a client has a socket exactly when it has a task
    list. *)
Theorem registry_stays_consistent
    (send_text : nat -> string -> bool) (message : string)
    (websocket task : nat) (client_id : string) (s : State) :
  consistent s ->
  consistent (connect websocket client_id s)
  ∧ consistent (disconnect client_id s)
  ∧ consistent (add_client_task client_id task s)
  ∧ consistent (send_personal_message send_text message client_id s).1
  ∧ consistent (broadcast send_text message s).1
  ∧ consistent (disconnect_all s).
Proof.
  intros Hs. split_and!.
  - by apply consistent_connect.
  - by apply consistent_disconnect.
  - by apply consistent_add_client_task.
  - unfold send_personal_message.
    destruct (active_connections s !! client_id) as [ws|]; [|done].
    destruct (send_text ws message); [done|]. by apply consistent_disconnect.
  - rewrite broadcast_unfold. by apply consistent_disconnect_each.
  - by apply consistent_disconnect_each.
Qed.

(** X21.  A personal message that cannot be sent costs the client its
    registration: it is disconnected on the spot, nothing is delivered, and
    its running tasks are asked to cancel. *)
Theorem failed_send_disconnects
    (send_text : nat -> string -> bool) (message client_id : string)
    (websocket : nat) (s : State) :
  active_connections s !! client_id = Some websocket ->
  send_text websocket message = false ->
  send_personal_message send_text message client_id s
  = (disconnect client_id s, [])
  ∧ is_client_connected client_id
      (send_personal_message send_text message client_id s).1 = false
  ∧ (∀ task, task ∈ tasks_of client_id s ->
             tasks s !! task = Some Running ->
             tasks (send_personal_message send_text message client_id s).1
               !! task = Some CancelRequested).
Proof.
  intros Hws Hfail.
  assert (send_personal_message send_text message client_id s
          = (disconnect client_id s, [])) as ->.
  { unfold send_personal_message. by rewrite Hws, Hfail. }
  split_and!; [done|apply disconnect_not_connected|].
  intros task Hin Hrun. cbn [fst].
  rewrite disconnect_tasks_lookup, decide_True by eauto. by rewrite Hrun.
Qed.

(** X22.  After a broadcast the registry holds exactly the clients whose
    socket took the message: a client whose send failed is gone, every other
    entry is untouched, and the message was delivered to a socket exactly
    when it is the socket of a client that stays. *)
Theorem broadcast_keeps_reachable_clients
    (send_text : nat -> string -> bool) (message : string) (s : State) :
  (∀ client_id,
     active_connections (broadcast send_text message s).1 !! client_id
     = match active_connections s !! client_id with
       | Some ws => if send_text ws message then Some ws else None
       | None => None
       end)
  ∧ (∀ ws text,
       (ws, text) ∈ (broadcast send_text message s).2
       <-> text = message
           ∧ send_text ws message = true
           ∧ ∃ client_id, active_connections s !! client_id = Some ws).
Proof.
  rewrite broadcast_unfold. cbn [fst snd]. split.
  - intros client_id. rewrite disconnect_each_connections.
    destruct (active_connections s !! client_id) as [ws|] eqn:Hws.
    + destruct (send_text ws message) eqn:Hsend.
      * rewrite decide_False; [done|].
        intros (ws' & Hws' & Hfail)%failed_clients. congruence.
      * rewrite decide_True; [done|]. apply failed_clients. by exists ws.
    + by destruct (decide _).
  - intros ws text. rewrite list_elem_of_fmap. split.
    + intros ([cid ws'] & [= -> ->] & [Hok Hin]%list_elem_of_filter).
      apply elem_of_map_to_list in Hin. split_and!; [done..|]. by exists cid.
    + intros (-> & Hok & cid & Hws). exists (cid, ws). split; [done|].
      apply list_elem_of_filter. split; [done|]. by apply elem_of_map_to_list.
Qed.

Lemma disconnect_each_requested (ids : list string) (s : State) (task : nat) :
  tasks s !! task = Some CancelRequested ->
  tasks (disconnect_each ids s) !! task = Some CancelRequested.
Proof.
  revert s. induction ids as [|a ids IH]; intros s Hreq; [done|].
  apply IH. rewrite disconnect_tasks_lookup, Hreq. by destruct (decide _).
Qed.

Lemma disconnect_each_cancels
    (ids : list string) (s : State) (client_id : string) (task : nat) :
  client_id ∈ ids ->
  is_Some (active_connections s !! client_id) ->
  task ∈ tasks_of client_id s ->
  tasks s !! task = Some Running ∨ tasks s !! task = Some CancelRequested ->
  tasks (disconnect_each ids s) !! task = Some CancelRequested.
Proof.
  revert s. induction ids as [|a ids IH]; intros s Hin Hws Htask Hstate.
  { by apply elem_of_nil in Hin. }
  change (disconnect_each (a :: ids) s)
    with (disconnect_each ids (disconnect a s)).
  destruct (decide (a = client_id)) as [->|Hne].
  - apply disconnect_each_requested.
    rewrite disconnect_tasks_lookup, decide_True by done.
    by destruct Hstate as [-> | ->].
  - apply elem_of_cons in Hin as [->|Hin]; [done|].
    destruct (disconnect_other client_id a s Hne) as [Hc Ht].
    apply IH; [done| by rewrite Hc | by unfold tasks_of; rewrite Ht |].
    rewrite disconnect_tasks_lookup.
    destruct (decide _); destruct Hstate as [-> | ->]; cbn; eauto.
Qed.

(** X23.  [disconnect_all] empties the registry: no client is left, the
    count is zero, a consistent registry keeps no task list either, and every
    running task that was registered for a connected client is asked to
    cancel. *)
Theorem disconnect_all_clears (s : State) :
  active_connections (disconnect_all s) = ∅
  ∧ get_client_count (disconnect_all s) = 0
  ∧ (consistent s -> client_tasks (disconnect_all s) = ∅)
  ∧ (∀ client_id task,
       is_Some (active_connections s !! client_id) ->
       task ∈ tasks_of client_id s ->
       tasks s !! task = Some Running ->
       tasks (disconnect_all s) !! task = Some CancelRequested).
Proof.
  assert (∀ client_id, client_id ∈ (map_to_list (active_connections s)).*1
                       <-> is_Some (active_connections s !! client_id)) as Hids.
  { intros client_id. rewrite list_elem_of_fmap. split.
    - intros ([cid ws] & -> & Hin). apply elem_of_map_to_list in Hin. by exists ws.
    - intros [ws Hws]. exists (client_id, ws). split; [done|].
      by apply elem_of_map_to_list. }
  assert (active_connections (disconnect_all s) = ∅) as Hempty.
  { apply map_empty. intros client_id. unfold disconnect_all.
    rewrite disconnect_each_connections.
    destruct (decide _) as [|Hnin]; [done|].
    destruct (active_connections s !! client_id) eqn:Hws; [|done].
    destruct Hnin. apply Hids. eauto. }
  split_and!.
  - done.
  - unfold get_client_count. rewrite Hempty. apply map_size_empty.
  - intros Hs.
    pose proof (consistent_disconnect_each
                  (map_to_list (active_connections s)).*1 s Hs) as Hall.
    unfold consistent in Hall. fold (disconnect_all s) in Hall.
    rewrite Hempty, dom_empty_L in Hall. by apply dom_empty_iff_L.
  - intros client_id task Hws Hin Hrun.
    apply (disconnect_each_cancels _ s client_id); [by apply Hids|done..|by left].
Qed.

(** X24.  A task registered for a connected client is reached by that
    client's [disconnect]; a task offered for an unknown client is dropped
    without a trace, so nothing will ever cancel it. *)
Theorem registered_task_is_cancelled
    (client_id : string) (task : nat) (s : State) :
  tasks s !! task = Some Running ->
  (is_Some (active_connections s !! client_id) ->
   is_Some (client_tasks s !! client_id) ->
   tasks_of client_id (add_client_task client_id task s)
   = tasks_of client_id s ++ [task]
   ∧ tasks (disconnect client_id (add_client_task client_id task s)) !! task
     = Some CancelRequested)
  ∧ (client_tasks s !! client_id = None ->
     add_client_task client_id task s = s).
Proof.
  intros Hrun. split.
  - intros Hws [ts Hts].
    assert (tasks_of client_id (add_client_task client_id task s)
            = tasks_of client_id s ++ [task]) as Hlist.
    { unfold tasks_of, add_client_task. rewrite Hts. cbn.
      by rewrite lookup_insert_eq. }
    split; [done|].
    rewrite disconnect_tasks_lookup, decide_True.
    + unfold add_client_task. rewrite Hts. cbn. by rewrite Hrun.
    + split.
      * unfold add_client_task. by rewrite Hts.
      * rewrite Hlist. apply elem_of_app. right. apply list_elem_of_here.
  - intros Hnone. unfold add_client_task. by rewrite Hnone.
Qed.

End RegistrySweeps.

Section RegistryExtrasWitnesses.
Import WebSocketManager.

Lemma connect_disconnect_round_trip_witness :
  active_connections (disconnect "bob" (connect 3 "bob" Examples.alice_busy))
    = active_connections Examples.alice_busy
  ∧ client_tasks (disconnect "bob" (connect 3 "bob" Examples.alice_busy))
    = client_tasks Examples.alice_busy
  ∧ tasks (disconnect "bob" (connect 3 "bob" Examples.alice_busy))
    = tasks Examples.alice_busy.
Proof.
  apply (connect_disconnect_round_trip 3 "bob" Examples.alice_busy);
    by vm_compute.
Defined.

Lemma disconnect_task_effect_witness :
  tasks (disconnect "alice" Examples.alice_busy) !! 7
  = if decide (7 ∈ tasks_of "alice" Examples.alice_busy)
    then after_cancel (tasks Examples.alice_busy !! 7)
    else tasks Examples.alice_busy !! 7.
Proof.
  apply (disconnect_task_effect "alice" Examples.alice_busy).
  apply (bool_decide_unpack _). by vm_compute.
Defined.

Lemma registry_stays_consistent_witness :
  consistent (connect 2 "alice" Examples.alice_busy)
  ∧ consistent (disconnect "alice" Examples.alice_busy)
  ∧ consistent (add_client_task "alice" 8 Examples.alice_busy)
  ∧ consistent (send_personal_message (fun _ _ => false) "{}" "alice"
                  Examples.alice_busy).1
  ∧ consistent (broadcast (fun _ _ => false) "{}" Examples.alice_busy).1
  ∧ consistent (disconnect_all Examples.alice_busy).
Proof.
  apply (registry_stays_consistent (fun _ _ => false) "{}" 2 8 "alice"
           Examples.alice_busy).
  apply (bool_decide_unpack _). by vm_compute.
Defined.

Lemma failed_send_disconnects_witness :
  send_personal_message (fun _ _ => false) "{}" "alice" Examples.alice_busy
  = (disconnect "alice" Examples.alice_busy, [])
  ∧ is_client_connected "alice"
      (send_personal_message (fun _ _ => false) "{}" "alice"
         Examples.alice_busy).1 = false
  ∧ (∀ task, task ∈ tasks_of "alice" Examples.alice_busy ->
             tasks Examples.alice_busy !! task = Some Running ->
             tasks (send_personal_message (fun _ _ => false) "{}" "alice"
                      Examples.alice_busy).1 !! task = Some CancelRequested).
Proof.
  apply (failed_send_disconnects (fun _ _ => false) "{}" "alice" 1
           Examples.alice_busy).
  - by vm_compute.
  - reflexivity.
Defined.

Lemma registered_task_is_cancelled_witness :
  (is_Some (active_connections Examples.alice_busy !! "alice") ->
   is_Some (client_tasks Examples.alice_busy !! "alice") ->
   tasks_of "alice" (add_client_task "alice" 7 Examples.alice_busy)
   = tasks_of "alice" Examples.alice_busy ++ [7]
   ∧ tasks (disconnect "alice" (add_client_task "alice" 7 Examples.alice_busy))
       !! 7 = Some CancelRequested)
  ∧ (client_tasks Examples.alice_busy !! "alice" = None ->
     add_client_task "alice" 7 Examples.alice_busy = Examples.alice_busy).
Proof.
  apply (registered_task_is_cancelled "alice" 7 Examples.alice_busy).
  by vm_compute.
Defined.

End RegistryExtrasWitnesses.

(** ** What gets past the handlers *)

Section Escapes.
Import Main.

(** X25.  In fallback mode nothing guards [exec]: when a python program
    raises outside [Exception], or never returns, [execute] ends the same
    way after the one [exec] call, and [execute_streaming] ends the same way
    after [start] and the call, with no [result], [complete] or [error]
    event. *)
Theorem exec_escape_reaches_caller
    (w : CodeExecutor.World) (code : string) (a : abrupt) :
  Py.strip code ≠ EmptyString ->
  CodeExecutor._is_e2b_enabled w = false ->
  CodeExecutor.exec w code = Raises a ->
  (∀ e, a ≠ Exc e) ->
  @CodeExecutor.execute CodeExecutor.Event w code "python"
  = ([Invoke (PyExec code)], Raises a)
  ∧ CodeExecutor.execute_streaming w code "python"
    = ([Emit (CodeExecutor.EvStart "python" (CodeExecutor.time_start w));
        Invoke (PyExec code)],
       Raises a)
  ∧ events (CodeExecutor.execute_streaming w code "python")
    = [CodeExecutor.EvStart "python" (CodeExecutor.time_start w)].
Proof.
  intros Hc He Hexec Ha.
  destruct (python_escape_run w code a Hc He Hexec Ha) as [Hrun Hstream].
  split_and!; [apply Hrun|done|by rewrite Hstream].
Qed.

(** X26.  The same holds one level up.  For such a request the handler
    sends [execution_start] and the wrapped [start] event and then ends the
    way [exec] did: no [execution_complete] and no error message follow.
    The endpoint ends that way too: it reads no further frame, sends
    nothing more and leaves the client registered. *)
Theorem escaping_request_ends_the_session
    (w : World) (websocket : nat) (client_id : string)
    (data : gmap string string) (rest : list Received)
    (s : WebSocketManager.State) (a : abrupt) :
  data !! "action" = Some "execute_code" ->
  Py.strip (get data "code" EmptyString) ≠ EmptyString ->
  get data "language" "python" = "python" ->
  CodeExecutor._is_e2b_enabled (executor w) = false ->
  CodeExecutor.exec (executor w) (get data "code" EmptyString) = Raises a ->
  (∀ e, a ≠ Exc e) ->
  handle_code_execution w data
  = ([Emit (MsgExecutionStart "python");
      Emit (MsgExecutionOutput
              (CodeExecutor.EvStart "python"
                 (CodeExecutor.time_start (executor w))));
      Invoke (PyExec (get data "code" EmptyString))],
     Raises a)
  ∧ websocket_endpoint w websocket client_id (Json data :: rest) s
    = (WebSocketManager.connect websocket client_id s,
       ([Emit (MsgExecutionStart "python");
         Emit (MsgExecutionOutput
                 (CodeExecutor.EvStart "python"
                    (CodeExecutor.time_start (executor w))));
         Invoke (PyExec (get data "code" EmptyString))],
        Raises a)).
Proof.
  intros Haction Hcode Hlang He Hexec Ha.
  destruct (python_escape_run (executor w) _ a Hcode He Hexec Ha)
    as [_ Hstream].
  assert (handle_code_execution w data
          = ([Emit (MsgExecutionStart "python");
              Emit (MsgExecutionOutput
                      (CodeExecutor.EvStart "python"
                         (CodeExecutor.time_start (executor w))));
              Invoke (PyExec (get data "code" EmptyString))],
             Raises a)) as Hhandler.
  { unfold handle_code_execution.
    apply truthy_true in Hcode. rewrite Hcode, Hlang, Hstream.
    cbn [negb]. unfold send_json, emit, relay. cbn [fst snd map].
    repeat first [rewrite bind_Raises | rewrite try_catch_passes by done
                 | rewrite bind_Returns; cbn [fst snd app]].
    done. }
  split; [done|].
  unfold websocket_endpoint. cbn [receive_loop]. unfold dispatch.
  rewrite Haction, bool_decide_eq_true_2 by done.
  rewrite Hhandler, bind_Raises.
  by destruct a as [e| |]; [destruct (Ha e)| |].
Qed.

(** X27.  The REST explain route always answers: with the explanation as a
    JSON body if the body can be encoded, else with the 500 error carrying
    the encoder's message. *)
Theorem rest_explain_answers
    (Y : Type) (render : string -> outcome unit)
    (w : World) (code output error : string) :
  ∃ text,
    (@RAGService.explain_code Y (rag w) code output error).2 = Returns text
    ∧ @explain_code_rest Y render w code output error
      = ((RAGService.explain_code (rag w) code output error).1,
         Returns (match render text with
                  | Returns _ => JSONResponse text
                  | Raises e => HTTPException 500 (str_exn e)
                  end)).
Proof.
  destruct (explain_code_returns Y (rag w) code output error) as [text Ht].
  exists text. split; [done|]. unfold explain_code_rest, build_response.
  destruct (RAGService.explain_code (rag w) code output error) as [t o].
  cbn in Ht. subst o. rewrite bind_Returns. unfold lift.
  destruct (render text) as [[]|e].
  - rewrite bind_Returns. cbn. by rewrite !app_nil_r.
  - rewrite bind_Raises. cbn [fst snd]. rewrite try_catch_Raises.
    cbn. by rewrite !app_nil_r.
Qed.

End Escapes.

Lemma exec_escape_reaches_caller_witness :
  @CodeExecutor.execute CodeExecutor.Event Examples.unguarded_world
    Examples.looping_program "python"
  = ([Invoke (PyExec Examples.looping_program)], Raises NoReturn)
  ∧ CodeExecutor.execute_streaming Examples.unguarded_world
      Examples.looping_program "python"
    = ([Emit (CodeExecutor.EvStart "python" 10);
        Invoke (PyExec Examples.looping_program)],
       Raises NoReturn)
  ∧ events (CodeExecutor.execute_streaming Examples.unguarded_world
              Examples.looping_program "python")
    = [CodeExecutor.EvStart "python" 10].
Proof.
  apply (exec_escape_reaches_caller Examples.unguarded_world
           Examples.looping_program NoReturn); by vm_compute.
Defined.

Lemma escaping_request_ends_the_session_witness :
  Main.websocket_endpoint Examples.unguarded_main 1 "alice"
    [Main.Json Examples.looping_request; Main.Disconnect] WebSocketManager.init
  = (WebSocketManager.connect 1 "alice" WebSocketManager.init,
     ([Emit (Main.MsgExecutionStart "python");
       Emit (Main.MsgExecutionOutput (CodeExecutor.EvStart "python" 10));
       Invoke (PyExec Examples.looping_program)],
      Raises NoReturn)).
Proof.
  apply (escaping_request_ends_the_session Examples.unguarded_main 1 "alice"
           Examples.looping_request [Main.Disconnect] WebSocketManager.init
           NoReturn); by vm_compute.
Defined.
